(** * NDKarte: the display lifecycle of [main.c]

    A shallow embedding of [app/src/main/cpp/main.c]: the application state
    record, the three display routines ([init_display], [terminate_display],
    [render_frame]), the two callbacks registered with the native-app glue
    ([handle_cmd], [handle_input]) and the main loop of [android_main].

    Every call that leaves the translation unit (EGL, GLES, the logger, the
    looper, the input-event accessors) is recorded in a call log, in
    program order; what such a call
    returns is supplied by the caller of the model, so that every theorem
    below holds for every behaviour of the platform. *)

From Stdlib Require Import ZArith List String Bool Lia.
Import ListNotations.

Local Open Scope string_scope.
Local Open Scope list_scope.
Local Open Scope Z_scope.

(** ** Platform constants

    The values of the macros of [EGL/egl.h], [GLES3/gl3.h], [android/log.h],
    [android/input.h], [android/looper.h] and [android_native_app_glue.h]
    that [main.c] names. *)

Module Platform.

(** Opaque platform handles ([EGLDisplay], [EGLSurface], [EGLContext],
    [EGLConfig], [ANativeWindow*]) are pointer-sized values. *)
Definition handle := Z.

(** Modelled from the spec: the headers that define the three "none"
    handles are not part of the sources; they are the null handle. *)
Definition EGL_NO_DISPLAY : handle := 0.
Definition EGL_NO_SURFACE : handle := 0.
Definition EGL_NO_CONTEXT : handle := 0.
Definition NULL : handle := 0.

Definition EGL_DEFAULT_DISPLAY : Z := 0.
Definition EGL_NONE : Z := 0x3038.
Definition EGL_SURFACE_TYPE : Z := 0x3033.
Definition EGL_WINDOW_BIT : Z := 0x0004.
Definition EGL_RENDERABLE_TYPE : Z := 0x3040.
Definition EGL_OPENGL_ES3_BIT : Z := 0x0040.
Definition EGL_BLUE_SIZE : Z := 0x3022.
Definition EGL_GREEN_SIZE : Z := 0x3023.
Definition EGL_RED_SIZE : Z := 0x3024.
Definition EGL_ALPHA_SIZE : Z := 0x3021.
Definition EGL_DEPTH_SIZE : Z := 0x3025.
Definition EGL_CONTEXT_CLIENT_VERSION : Z := 0x3098.
Definition EGL_WIDTH : Z := 0x3057.
Definition EGL_HEIGHT : Z := 0x3056.

Definition GL_VENDOR : Z := 0x1F00.
Definition GL_RENDERER : Z := 0x1F01.
Definition GL_VERSION : Z := 0x1F02.
Definition GL_COLOR_BUFFER_BIT : Z := 0x4000.
Definition GL_DEPTH_BUFFER_BIT : Z := 0x0100.

Definition APP_CMD_INIT_WINDOW : Z := 1.
Definition APP_CMD_TERM_WINDOW : Z := 2.
Definition APP_CMD_GAINED_FOCUS : Z := 6.
Definition APP_CMD_LOST_FOCUS : Z := 7.
Definition APP_CMD_RESUME : Z := 11.
Definition APP_CMD_PAUSE : Z := 13.
Definition APP_CMD_DESTROY : Z := 15.

Definition AINPUT_EVENT_TYPE_KEY : Z := 1.
Definition AINPUT_EVENT_TYPE_MOTION : Z := 2.
Definition AMOTION_EVENT_ACTION_MASK : Z := 0xff.
Definition AMOTION_EVENT_ACTION_DOWN : Z := 0.
Definition AMOTION_EVENT_ACTION_UP : Z := 1.
Definition AMOTION_EVENT_ACTION_MOVE : Z := 2.

Definition ALOOPER_POLL_TIMEOUT : Z := -3.

Inductive LogPriority := ANDROID_LOG_INFO | ANDROID_LOG_WARN | ANDROID_LOG_ERROR.

End Platform.
Import Platform.

(** ** The call log *)

(** An argument of a printf-style log line. A [float] is carried as its
    IEEE-754 single-precision bit pattern: the program never computes on it. *)
Inductive LogArg : Type :=
| ArgInt (z : Z)
| ArgStr (s : string)
| ArgFloat (bits : Z).

(** One call that leaves [main.c], with the arguments the program passes. *)
Inductive Call : Type :=
| android_log_print (prio : LogPriority) (tag fmt : string) (args : list LogArg)
| eglGetDisplay (display_id : Z)
| eglInitialize (dpy : handle)
| eglChooseConfig (dpy : handle) (attribs : list Z) (config_size : Z)
| eglCreateWindowSurface (dpy config win : handle)
| eglCreateContext (dpy config share : handle) (attribs : list Z)
| eglMakeCurrent (dpy draw read ctx : handle)
| eglQuerySurface (dpy surf : handle) (attribute : Z)
| eglDestroyContext (dpy ctx : handle)
| eglDestroySurface (dpy surf : handle)
| eglTerminate (dpy : handle)
| eglSwapBuffers (dpy surf : handle)
| glGetString (name : Z)
| glViewport (x y w h : Z)
| glClearColor (r g b a : Z)
| glClear (mask : Z)
| ALooper_pollAll (timeoutMillis : Z)
| AInputEvent_getType
| AMotionEvent_getAction
| AMotionEvent_getX (pointer_index : Z)
| AMotionEvent_getY (pointer_index : Z).

(** ** Program state *)

(** [struct android_app], as far as [main.c] reads it. *)
Record android_app : Type := mk_android_app {
  window : handle;
  destroyRequested : Z
}.

(** [AppState]. The [app] field is the pointer stored by [android_main];
    the object it points to is passed separately wherever it is read. *)
Record AppState : Type := mkAppState {
  app : Z;
  display : handle;
  surface : handle;
  context : handle;
  width : Z;
  height : Z;
  initialized : bool;
  has_focus : bool
}.

Definition set_display (v : handle) (s : AppState) : AppState :=
  mkAppState (app s) v (surface s) (context s) (width s) (height s)
             (initialized s) (has_focus s).
Definition set_surface (v : handle) (s : AppState) : AppState :=
  mkAppState (app s) (display s) v (context s) (width s) (height s)
             (initialized s) (has_focus s).
Definition set_context (v : handle) (s : AppState) : AppState :=
  mkAppState (app s) (display s) (surface s) v (width s) (height s)
             (initialized s) (has_focus s).
Definition set_width (v : Z) (s : AppState) : AppState :=
  mkAppState (app s) (display s) (surface s) (context s) v (height s)
             (initialized s) (has_focus s).
Definition set_height (v : Z) (s : AppState) : AppState :=
  mkAppState (app s) (display s) (surface s) (context s) (width s) v
             (initialized s) (has_focus s).
Definition set_initialized (v : bool) (s : AppState) : AppState :=
  mkAppState (app s) (display s) (surface s) (context s) (width s) (height s)
             v (has_focus s).
Definition set_has_focus (v : bool) (s : AppState) : AppState :=
  mkAppState (app s) (display s) (surface s) (context s) (width s) (height s)
             (initialized s) v.

(** ** A state-and-log monad for the routines that take [AppState*] *)

Module Eff.

Definition M (A : Type) : Type := AppState -> A * AppState * list Call.

Definition ret {A} (x : A) : M A := fun s => (x, s, []).

Definition bind {A B} (m : M A) (k : A -> M B) : M B :=
  fun s =>
    match m s with
    | (x, s1, l1) =>
        match k x s1 with
        | (y, s2, l2) => (y, s2, l1 ++ l2)
        end
    end.

Definition get : M AppState := fun s => (s, s, []).
Definition modify (f : AppState -> AppState) : M unit := fun s => (tt, f s, []).
Definition call (c : Call) : M unit := fun s => (tt, s, [c]).

Definition value {A} (r : A * AppState * list Call) : A := fst (fst r).
Definition state {A} (r : A * AppState * list Call) : AppState := snd (fst r).
Definition calls {A} (r : A * AppState * list Call) : list Call := snd r.

End Eff.
Import Eff.

Declare Scope eff_scope.
Delimit Scope eff_scope with eff.
Notation "x <- c1 ;; c2" := (bind c1 (fun x => c2))
  (at level 61, c1 at next level, right associativity) : eff_scope.
Notation "c1 ;; c2" := (bind c1 (fun _ => c2))
  (at level 61, right associativity) : eff_scope.
Local Open Scope eff_scope.

Definition LOG_TAG : string := "NDKarte".
Definition LOGI (fmt : string) (args : list LogArg) : M unit :=
  call (android_log_print ANDROID_LOG_INFO LOG_TAG fmt args).
Definition LOGW (fmt : string) (args : list LogArg) : M unit :=
  call (android_log_print ANDROID_LOG_WARN LOG_TAG fmt args).
Definition LOGE (fmt : string) (args : list LogArg) : M unit :=
  call (android_log_print ANDROID_LOG_ERROR LOG_TAG fmt args).

(** ** What the platform answers during one [init_display]

    [EGLBoolean] results are integers (zero is failure). A surface query
    that fails leaves its output argument untouched, hence the [option]. *)
Record EglEnv : Type := mkEglEnv {
  r_eglGetDisplay : handle;
  r_eglInitialize : Z;
  r_eglChooseConfig : Z;
  r_config : handle;
  r_num_configs : Z;
  r_eglCreateWindowSurface : handle;
  r_eglCreateContext : handle;
  r_eglMakeCurrent : Z;
  r_query_width : option Z;
  r_query_height : option Z;
  r_gl_vendor : string;
  r_gl_renderer : string;
  r_gl_version : string
}.

(** ** [init_display] *)

Definition config_attribs : list Z :=
  [ EGL_SURFACE_TYPE; EGL_WINDOW_BIT;
    EGL_RENDERABLE_TYPE; EGL_OPENGL_ES3_BIT;
    EGL_BLUE_SIZE; 8;
    EGL_GREEN_SIZE; 8;
    EGL_RED_SIZE; 8;
    EGL_ALPHA_SIZE; 8;
    EGL_DEPTH_SIZE; 24;
    EGL_NONE ].

Definition context_attribs : list Z :=
  [ EGL_CONTEXT_CLIENT_VERSION; 3; EGL_NONE ].

(** [eglQuerySurface(dpy, surf, attr, &field)]. *)
Definition query_surface (attr : Z) (answer : option Z)
    (store : Z -> AppState -> AppState) : M unit :=
  s <- get ;;
  call (eglQuerySurface (display s) (surface s) attr) ;;
  match answer with
  | Some v => modify (store v)
  | None => ret tt
  end.

Definition init_display (a : android_app) (e : EglEnv) : M bool :=
  call (eglGetDisplay EGL_DEFAULT_DISPLAY) ;;
  modify (set_display (r_eglGetDisplay e)) ;;
  s <- get ;;
  if display s =? EGL_NO_DISPLAY then
    LOGE "Failed to get EGL display" [] ;; ret false
  else
  call (eglInitialize (display s)) ;;
  if r_eglInitialize e =? 0 then
    LOGE "Failed to initialize EGL" [] ;; ret false
  else
  call (eglChooseConfig (display s) config_attribs 1) ;;
  if (r_eglChooseConfig e =? 0) || (r_num_configs e =? 0) then
    LOGE "Failed to choose EGL config" [] ;; ret false
  else
  call (eglCreateWindowSurface (display s) (r_config e) (window a)) ;;
  modify (set_surface (r_eglCreateWindowSurface e)) ;;
  s <- get ;;
  if surface s =? EGL_NO_SURFACE then
    LOGE "Failed to create EGL surface" [] ;; ret false
  else
  call (eglCreateContext (display s) (r_config e) EGL_NO_CONTEXT context_attribs) ;;
  modify (set_context (r_eglCreateContext e)) ;;
  s <- get ;;
  if context s =? EGL_NO_CONTEXT then
    LOGE "Failed to create EGL context" [] ;; ret false
  else
  call (eglMakeCurrent (display s) (surface s) (surface s) (context s)) ;;
  if r_eglMakeCurrent e =? 0 then
    LOGE "Failed to make EGL context current" [] ;; ret false
  else
  query_surface EGL_WIDTH (r_query_width e) set_width ;;
  query_surface EGL_HEIGHT (r_query_height e) set_height ;;
  s <- get ;;
  LOGI "Display initialized: %dx%d" [ArgInt (width s); ArgInt (height s)] ;;
  call (glGetString GL_VENDOR) ;;
  LOGI "GL_VENDOR: %s" [ArgStr (r_gl_vendor e)] ;;
  call (glGetString GL_RENDERER) ;;
  LOGI "GL_RENDERER: %s" [ArgStr (r_gl_renderer e)] ;;
  call (glGetString GL_VERSION) ;;
  LOGI "GL_VERSION: %s" [ArgStr (r_gl_version e)] ;;
  call (glViewport 0 0 (width s) (height s)) ;;
  modify (set_initialized true) ;;
  ret true.

(** ** [terminate_display] *)

Definition terminate_display : M unit :=
  s <- get ;;
  (if negb (display s =? EGL_NO_DISPLAY) then
     call (eglMakeCurrent (display s) EGL_NO_SURFACE EGL_NO_SURFACE EGL_NO_CONTEXT) ;;
     (if negb (context s =? EGL_NO_CONTEXT)
      then call (eglDestroyContext (display s) (context s))
      else ret tt) ;;
     (if negb (surface s =? EGL_NO_SURFACE)
      then call (eglDestroySurface (display s) (surface s))
      else ret tt) ;;
     call (eglTerminate (display s))
   else ret tt) ;;
  modify (set_display EGL_NO_DISPLAY) ;;
  modify (set_surface EGL_NO_SURFACE) ;;
  modify (set_context EGL_NO_CONTEXT) ;;
  modify (set_initialized false) ;;
  LOGI "Display terminated" [].

(** ** [render_frame] *)

(** The clear colour [(0.1f, 0.15f, 0.2f, 1.0f)] as single-precision bits. *)
Definition clear_r : Z := 0x3DCCCCCD.
Definition clear_g : Z := 0x3E19999A.
Definition clear_b : Z := 0x3E4CCCCD.
Definition clear_a : Z := 0x3F800000.

Definition render_frame : M unit :=
  s <- get ;;
  if negb (initialized s) then ret tt
  else
  call (glClearColor clear_r clear_g clear_b clear_a) ;;
  call (glClear (Z.lor GL_COLOR_BUFFER_BIT GL_DEPTH_BUFFER_BIT)) ;;
  call (eglSwapBuffers (display s) (surface s)).

(** ** [handle_cmd] *)

(** The callback registered as [app->onAppCmd]. [a] is the [android_app]
    the glue passes (and [state->app] points to); [e] holds the platform's
    answers in case the command reaches [init_display]. *)
Definition handle_cmd (a : android_app) (e : EglEnv) (cmd : Z) : M unit :=
  if cmd =? APP_CMD_INIT_WINDOW then
    LOGI "APP_CMD_INIT_WINDOW" [] ;;
    (if negb (window a =? NULL)
     then _ <- init_display a e ;; ret tt
     else ret tt)
  else if cmd =? APP_CMD_TERM_WINDOW then
    LOGI "APP_CMD_TERM_WINDOW" [] ;;
    terminate_display
  else if cmd =? APP_CMD_GAINED_FOCUS then
    LOGI "APP_CMD_GAINED_FOCUS" [] ;;
    modify (set_has_focus true)
  else if cmd =? APP_CMD_LOST_FOCUS then
    LOGI "APP_CMD_LOST_FOCUS" [] ;;
    modify (set_has_focus false) ;;
    render_frame
  else if cmd =? APP_CMD_PAUSE then
    LOGI "APP_CMD_PAUSE" []
  else if cmd =? APP_CMD_RESUME then
    LOGI "APP_CMD_RESUME" []
  else if cmd =? APP_CMD_DESTROY then
    LOGI "APP_CMD_DESTROY" []
  else ret tt.

(** ** [handle_input] *)

(** What the accessors [AInputEvent_getType], [AMotionEvent_getAction],
    [AMotionEvent_getX(event, 0)] and [AMotionEvent_getY(event, 0)] return
    for an event. *)
Record AInputEvent : Type := mkAInputEvent {
  ev_type : Z;
  ev_action : Z;
  ev_x : Z;
  ev_y : Z
}.

(** The callback registered as [app->onInputEvent]; the state is not used.
    The accessor calls take the event of the callback as their argument. *)
Definition handle_input (event : AInputEvent) : M Z :=
  call AInputEvent_getType ;;
  let event_type := ev_type event in
  if event_type =? AINPUT_EVENT_TYPE_MOTION then
    call AMotionEvent_getAction ;;
    let action := ev_action event in
    call (AMotionEvent_getX 0) ;;
    let x := ev_x event in
    call (AMotionEvent_getY 0) ;;
    let y := ev_y event in
    let masked := Z.land action AMOTION_EVENT_ACTION_MASK in
    (if masked =? AMOTION_EVENT_ACTION_DOWN then
       LOGI "Touch DOWN at (%.1f, %.1f)" [ArgFloat x; ArgFloat y]
     else if masked =? AMOTION_EVENT_ACTION_UP then
       LOGI "Touch UP at (%.1f, %.1f)" [ArgFloat x; ArgFloat y]
     else if masked =? AMOTION_EVENT_ACTION_MOVE then
       ret tt
     else ret tt) ;;
    ret 1
  else ret 0.

(** ** The host pump *)

(** What a poll source delivers when its [process] function runs: one
    lifecycle command (with the window the host has pending and the
    platform's answers for a possible [init_display]), or a batch of input
    events. *)
Inductive Source : Type :=
| SrcCmd (cmd : Z) (pendingWindow : handle) (e : EglEnv)
| SrcInput (events : list AInputEvent).

(** The configuration of the running program: the glue's [android_app] and
    the [AppState] local of [android_main]. *)
Record Config : Type := mkConfig {
  c_app : android_app;
  c_state : AppState
}.

Fixpoint dispatch_inputs (events : list AInputEvent) (s : AppState)
    : AppState * list Call :=
  match events with
  | [] => (s, [])
  | ev :: rest =>
      let r := handle_input ev s in
      let r' := dispatch_inputs rest (state r) in
      (fst r', calls r ++ snd r')
  end.

(** Modelled from the spec: [source->process(app, source)] belongs to the
    native-app glue, which is not part of the sources. Per the spec's host
    pump and window-handle provider (sections 3 and 6): the window handle
    is exposed in [app->window] from the dispatch of the window-available
    command until the window-unavailable command has been handled, the
    Destroy command is the termination signal and raises
    [app->destroyRequested], commands go to the registered command handler
    and input events to the registered input handler, in arrival order. *)
Definition process (src : Source) (c : Config) : Config * list Call :=
  match src with
  | SrcCmd cmd pendingWindow e =>
      let a1 :=
        if cmd =? APP_CMD_INIT_WINDOW
        then mk_android_app pendingWindow (destroyRequested (c_app c))
        else if cmd =? APP_CMD_DESTROY
        then mk_android_app (window (c_app c)) 1
        else c_app c in
      let r := handle_cmd a1 e cmd (c_state c) in
      let a2 :=
        if cmd =? APP_CMD_TERM_WINDOW
        then mk_android_app NULL (destroyRequested a1)
        else a1 in
      (mkConfig a2 (state r), calls r)
  | SrcInput events =>
      let r := dispatch_inputs events (c_state c) in
      (mkConfig (c_app c) (fst r), snd r)
  end.

(** ** [android_main] *)

(** One answer of [ALooper_pollAll]: its return value and the source it
    stored through the out-parameter ([None] is a null source). *)
Record PollAnswer : Type := mkPollAnswer {
  poll_ret : Z;
  poll_source : option Source
}.

(** The first argument of [ALooper_pollAll]: [state.has_focus ? 0 : -1]. *)
Definition poll_timeout (s : AppState) : Z :=
  if has_focus s then 0 else -1.

(** Where a run stands: [android_main] has returned, or it is about to
    call [ALooper_pollAll] and the script holds no further answer. *)
Inductive LoopStatus : Type := Returned | AtPoll.

Record Run : Type := mkRun {
  run_status : LoopStatus;
  run_config : Config;
  run_calls : list Call
}.

Definition prepend (l : list Call) (r : Run) : Run :=
  mkRun (run_status r) (run_config r) (l ++ run_calls r).

(** The body executed for one answer of the looper. Both loops of
    [android_main] reach the same call of [ALooper_pollAll] next, so a run
    is a sequence of such bodies. The result is [inl] when [android_main]
    returns and [inr] when it goes on to poll again. *)
Definition loop_body (p : PollAnswer) (c : Config)
    : (Config + Config) * list Call :=
  let poll := ALooper_pollAll (poll_timeout (c_state c)) in
  if poll_ret p >=? 0 then
    let pr := match poll_source p with
              | Some src => process src c
              | None => (c, [])
              end in
    let c1 := fst pr in
    if negb (destroyRequested (c_app c1) =? 0) then
      let r := (LOGI "Destroy requested, exiting..." [] ;;
                terminate_display) (c_state c1) in
      (inl (mkConfig (c_app c1) (state r)), poll :: snd pr ++ calls r)
    else
      (inr c1, poll :: snd pr)
  else
    let r := (if has_focus (c_state c) then render_frame else ret tt)
               (c_state c) in
    (inr (mkConfig (c_app c) (state r)), poll :: calls r).

Fixpoint main_loop (script : list PollAnswer) (c : Config) : Run :=
  match script with
  | [] => mkRun AtPoll c []
  | p :: rest =>
      match loop_body p c with
      | (inl c', l) => mkRun Returned c' l
      | (inr c', l) => prepend l (main_loop rest c')
      end
  end.

(** The state [android_main] starts its loop in: [AppState state = {0}]
    with the [app] pointer and the three "no handle" values stored. *)
Definition initial_state (app_ptr : Z) : AppState :=
  mkAppState app_ptr EGL_NO_DISPLAY EGL_NO_SURFACE EGL_NO_CONTEXT 0 0 false false.

Definition android_main (app_ptr : Z) (a : android_app)
    (script : list PollAnswer) : Run :=
  prepend [android_log_print ANDROID_LOG_INFO LOG_TAG "NDKarte starting..." []]
          (main_loop script (mkConfig a (initial_state app_ptr))).

(** ** Sample platform answers and [android_app] values *)

Definition env_ok : EglEnv :=
  mkEglEnv 11 1 1 5 1 22 33 1 (Some 1920) (Some 1200) "v" "r" "3.0".
Definition env_no_config : EglEnv :=
  mkEglEnv 11 1 1 5 0 22 33 1 (Some 1920) (Some 1200) "v" "r" "3.0".
Definition app0 : android_app := mk_android_app NULL 0.
Definition app_win : android_app := mk_android_app 77 0.

(** ** Observations on call logs *)

Definition is_present (c : Call) : bool :=
  match c with eglSwapBuffers _ _ => true | _ => false end.

Definition is_draw (c : Call) : bool :=
  match c with glClearColor _ _ _ _ | glClear _ => true | _ => false end.

Definition is_poll (c : Call) : bool :=
  match c with ALooper_pollAll _ => true | _ => false end.

(** The calls by which [terminate_display] gives resources back. *)
Definition is_teardown (c : Call) : bool :=
  match c with
  | eglDestroyContext _ _ | eglDestroySurface _ _ | eglTerminate _ => true
  | eglMakeCurrent _ draw read ctx =>
      (draw =? EGL_NO_SURFACE) && (read =? EGL_NO_SURFACE) && (ctx =? EGL_NO_CONTEXT)
  | _ => false
  end.

(** The line [terminate_display] logs on every path, once per invocation. *)
Definition terminated_line : Call :=
  android_log_print ANDROID_LOG_INFO LOG_TAG "Display terminated" [].

Definition is_terminated_line (c : Call) : bool :=
  match c with
  | android_log_print ANDROID_LOG_INFO _ fmt [] => String.eqb fmt "Display terminated"
  | _ => false
  end.

Definition count (f : Call -> bool) (l : list Call) : nat :=
  List.length (filter f l).

Definition handles_all_null (s : AppState) : Prop :=
  display s = EGL_NO_DISPLAY /\ surface s = EGL_NO_SURFACE /\
  context s = EGL_NO_CONTEXT.

Definition handles_all_set (s : AppState) : Prop :=
  display s <> EGL_NO_DISPLAY /\ surface s <> EGL_NO_SURFACE /\
  context s <> EGL_NO_CONTEXT.

(** How the looper treats its timeout argument: zero returns at once, a
    negative value waits until an event arrives. *)
Inductive PollMode : Type := NonBlocking | Blocking | TimedWait.

Definition poll_mode (timeoutMillis : Z) : PollMode :=
  if timeoutMillis =? 0 then NonBlocking
  else if timeoutMillis <? 0 then Blocking
  else TimedWait.

(** ** The step at which [init_display] gives up

    The tests of [init_display], in program order, read off the platform's
    answers: [None] when every test passes. *)
Inductive SurfaceError : Type :=
| ConnectionFailed
| InitFailed
| NoMatchingConfig
| SurfaceCreateFailed
| ContextCreateFailed
| MakeCurrentFailed.

Definition failing_step (e : EglEnv) : option SurfaceError :=
  if r_eglGetDisplay e =? EGL_NO_DISPLAY then Some ConnectionFailed
  else if r_eglInitialize e =? 0 then Some InitFailed
  else if (r_eglChooseConfig e =? 0) || (r_num_configs e =? 0)
       then Some NoMatchingConfig
  else if r_eglCreateWindowSurface e =? EGL_NO_SURFACE
       then Some SurfaceCreateFailed
  else if r_eglCreateContext e =? EGL_NO_CONTEXT
       then Some ContextCreateFailed
  else if r_eglMakeCurrent e =? 0 then Some MakeCurrentFailed
  else None.

(** Which creation steps had succeeded when the call gave up at [f]. *)
Definition display_created (f : SurfaceError) : bool :=
  match f with ConnectionFailed => false | _ => true end.
Definition surface_created (f : SurfaceError) : bool :=
  match f with ContextCreateFailed | MakeCurrentFailed => true | _ => false end.
Definition context_created (f : SurfaceError) : bool :=
  match f with MakeCurrentFailed => true | _ => false end.

(** "Fully torn down": nothing initialized, no handle kept. *)
Definition fully_torn_down (s : AppState) : Prop :=
  initialized s = false /\ handles_all_null s.

(** ** The surface invariant and scripts without failing acquisitions *)

Definition surface_invariant (s : AppState) : Prop :=
  (initialized s = true -> handles_all_set s) /\
  (initialized s = false -> handles_all_null s).

(** An answer of the looper that cannot lead into a failing
    [init_display]: it does not carry [APP_CMD_INIT_WINDOW] with a window,
    or the platform's answers pass every test of [init_display]. *)
Definition acquire_succeeds (p : PollAnswer) : bool :=
  match poll_source p with
  | Some (SrcCmd cmd w e) =>
      if (cmd =? APP_CMD_INIT_WINDOW) && negb (w =? NULL)
      then match failing_step e with None => true | Some _ => false end
      else true
  | _ => true
  end.

(** ** Log lines and sample answers of the looper *)

Definition init_window_line : Call :=
  android_log_print ANDROID_LOG_INFO LOG_TAG "APP_CMD_INIT_WINDOW" [].
Definition lost_focus_line : Call :=
  android_log_print ANDROID_LOG_INFO LOG_TAG "APP_CMD_LOST_FOCUS" [].
Definition destroy_line : Call :=
  android_log_print ANDROID_LOG_INFO LOG_TAG "APP_CMD_DESTROY" [].
Definition exiting_line : Call :=
  android_log_print ANDROID_LOG_INFO LOG_TAG "Destroy requested, exiting..." [].

Definition env_no_display : EglEnv :=
  mkEglEnv 0 1 1 5 1 22 33 1 (Some 1920) (Some 1200) "v" "r" "3.0".

Definition cmd_answer (cmd : Z) (w : handle) (e : EglEnv) : PollAnswer :=
  mkPollAnswer 1 (Some (SrcCmd cmd w e)).
Definition timeout_answer : PollAnswer :=
  mkPollAnswer ALOOPER_POLL_TIMEOUT None.

(** ** Further observations on call logs *)

Definition is_error_line (c : Call) : bool :=
  match c with android_log_print ANDROID_LOG_ERROR _ _ _ => true | _ => false end.

Definition is_log (c : Call) : bool :=
  match c with android_log_print _ _ _ _ => true | _ => false end.

Definition is_initialize (c : Call) : bool :=
  match c with eglInitialize _ => true | _ => false end.
Definition is_choose_config (c : Call) : bool :=
  match c with eglChooseConfig _ _ _ => true | _ => false end.
Definition is_create_surface (c : Call) : bool :=
  match c with eglCreateWindowSurface _ _ _ => true | _ => false end.
Definition is_create_context (c : Call) : bool :=
  match c with eglCreateContext _ _ _ _ => true | _ => false end.
Definition is_make_current (c : Call) : bool :=
  match c with eglMakeCurrent _ _ _ _ => true | _ => false end.

(** No null handle where the callee is asked to release or present
    something: the display of every release call, the context and surface
    to be destroyed, the display and surface to be presented. *)
Definition live_args (c : Call) : bool :=
  match c with
  | eglDestroyContext d x => negb (d =? EGL_NO_DISPLAY) && negb (x =? EGL_NO_CONTEXT)
  | eglDestroySurface d x => negb (d =? EGL_NO_DISPLAY) && negb (x =? EGL_NO_SURFACE)
  | eglTerminate d => negb (d =? EGL_NO_DISPLAY)
  | eglMakeCurrent d _ _ _ => negb (d =? EGL_NO_DISPLAY)
  | eglSwapBuffers d x => negb (d =? EGL_NO_DISPLAY) && negb (x =? EGL_NO_SURFACE)
  | _ => true
  end.

(** The calls of one rendered frame. *)
Definition frame_calls (s : AppState) : list Call :=
  [ glClearColor clear_r clear_g clear_b clear_a;
    glClear (Z.lor GL_COLOR_BUFFER_BIT GL_DEPTH_BUFFER_BIT);
    eglSwapBuffers (display s) (surface s) ].

(** The seven commands [handle_cmd] has a case for. *)
Definition handled_cmd (cmd : Z) : bool :=
  (cmd =? APP_CMD_INIT_WINDOW) || (cmd =? APP_CMD_TERM_WINDOW) ||
  (cmd =? APP_CMD_GAINED_FOCUS) || (cmd =? APP_CMD_LOST_FOCUS) ||
  (cmd =? APP_CMD_PAUSE) || (cmd =? APP_CMD_RESUME) ||
  (cmd =? APP_CMD_DESTROY).

Definition with_action (action : Z) (event : AInputEvent) : AInputEvent :=
  mkAInputEvent (ev_type event) action (ev_x event) (ev_y event).

(** ** Observations on runs *)

(** A looper call that waits: every call that is a poll has a negative
    timeout. *)
Definition blocking_poll (c : Call) : bool :=
  match c with ALooper_pollAll t => t <? 0 | _ => true end.

(** An answer of the looper that does not deliver [APP_CMD_GAINED_FOCUS]. *)
Definition no_focus_gain (p : PollAnswer) : bool :=
  match poll_source p with
  | Some (SrcCmd cmd _ _) => negb (cmd =? APP_CMD_GAINED_FOCUS)
  | _ => true
  end.

(** A call that belongs to a rendered frame. *)
Definition is_frame_call (c : Call) : bool := is_draw c || is_present c.

(** An answer of the looper that cannot lead into a successful
    [init_display]. *)
Definition no_acquire_success (p : PollAnswer) : bool :=
  match poll_source p with
  | Some (SrcCmd cmd w e) =>
      negb (cmd =? APP_CMD_INIT_WINDOW) || (w =? NULL) ||
      match failing_step e with Some _ => true | None => false end
  | _ => true
  end.

(** ** Reads of an input event *)


(** The accessor calls [handle_input] makes on an event: its type, and for
    a motion event its action and the two coordinates of pointer 0. *)
Definition input_reads (event : AInputEvent) : list Call :=
  AInputEvent_getType ::
  (if ev_type event =? AINPUT_EVENT_TYPE_MOTION
   then [AMotionEvent_getAction; AMotionEvent_getX 0; AMotionEvent_getY 0]
   else []).

(** ** Failed acquisitions that are still pending

    [settles p b]: whether, after the loop has consumed the answer [p], no
    failed [init_display] is pending, given that this was so ([b]) before.
    An answer with a negative return value is not dispatched. A dispatched
    [APP_CMD_INIT_WINDOW] with a window runs [init_display]: its success
    clears what was pending, its failure is pending from then on. A
    dispatched [APP_CMD_TERM_WINDOW] runs [terminate_display] and clears
    what was pending. Nothing else changes it. *)
Definition settles (p : PollAnswer) (b : bool) : bool :=
  if poll_ret p >=? 0 then
    match poll_source p with
    | Some (SrcCmd cmd w e) =>
        if cmd =? APP_CMD_INIT_WINDOW then
          if w =? NULL then b
          else match failing_step e with None => true | Some _ => false end
        else if cmd =? APP_CMD_TERM_WINDOW then true
        else b
    | _ => b
    end
  else b.

Definition no_pending_failure (script : list PollAnswer) : bool :=
  fold_left (fun b p => settles p b) script true.

(** * Properties *)

(** ** Sequencing *)

Lemma value_bind {A B} (m : M A) (k : A -> M B) (s : AppState) :
  value (bind m k s) = value (k (value (m s)) (state (m s))).
Proof.
  unfold bind. destruct (m s) as [[x s1] l1]; cbn.
  destruct (k x s1) as [[y s2] l2]; reflexivity.
Qed.

Lemma state_bind {A B} (m : M A) (k : A -> M B) (s : AppState) :
  state (bind m k s) = state (k (value (m s)) (state (m s))).
Proof.
  unfold bind. destruct (m s) as [[x s1] l1]; cbn.
  destruct (k x s1) as [[y s2] l2]; reflexivity.
Qed.

Lemma calls_bind {A B} (m : M A) (k : A -> M B) (s : AppState) :
  calls (bind m k s) = calls (m s) ++ calls (k (value (m s)) (state (m s))).
Proof.
  unfold bind. destruct (m s) as [[x s1] l1]; cbn.
  destruct (k x s1) as [[y s2] l2]; reflexivity.
Qed.

Lemma count_app (f : Call -> bool) (l1 l2 : list Call) :
  count f (l1 ++ l2) = (count f l1 + count f l2)%nat.
Proof.
  unfold count. rewrite filter_app, length_app. reflexivity.
Qed.

(** ** [render_frame] *)

Lemma render_frame_state (s : AppState) : state (render_frame s) = s.
Proof.
  unfold render_frame, bind, get, state; cbn.
  destruct (initialized s); reflexivity.
Qed.

(** C6. [render_frame] on a state that is not initialized returns at once:
    no call at all is made (neither the clear that stands for the draw nor
    the buffer swap) and the state is unchanged. On an initialized state it
    issues the draw (clear colour, clear) and then swaps the buffers of the
    stored display and surface; the state is unchanged there too. *)
Theorem render_frame_gated (s : AppState) :
  state (render_frame s) = s /\
  calls (render_frame s) =
    (if initialized s
     then [ glClearColor clear_r clear_g clear_b clear_a;
            glClear (Z.lor GL_COLOR_BUFFER_BIT GL_DEPTH_BUFFER_BIT);
            eglSwapBuffers (display s) (surface s) ]
     else []) /\
  count is_draw (calls (render_frame s)) = (if initialized s then 2 else 0)%nat /\
  count is_present (calls (render_frame s)) = (if initialized s then 1 else 0)%nat.
Proof.
  split; [apply render_frame_state|].
  unfold render_frame, bind, get, calls, call; cbn.
  destruct (initialized s); cbn; repeat split; reflexivity.
Qed.

(** ** [terminate_display] *)

Lemma terminate_display_state (s : AppState) :
  state (terminate_display s) =
  mkAppState (app s) EGL_NO_DISPLAY EGL_NO_SURFACE EGL_NO_CONTEXT
             (width s) (height s) false (has_focus s).
Proof.
  unfold terminate_display, bind, get, state; cbn.
  destruct (display s =? EGL_NO_DISPLAY); cbn;
    [reflexivity|].
  destruct (context s =? EGL_NO_CONTEXT), (surface s =? EGL_NO_SURFACE);
    reflexivity.
Qed.

Lemma terminate_display_released_calls (s : AppState) :
  display s = EGL_NO_DISPLAY ->
  calls (terminate_display s) = [terminated_line].
Proof.
  intros H. unfold terminate_display, bind, get, calls; cbn.
  rewrite H. reflexivity.
Qed.

Lemma terminate_display_counts (s : AppState) :
  count is_terminated_line (calls (terminate_display s)) = 1%nat /\
  count is_poll (calls (terminate_display s)) = 0%nat /\
  count is_present (calls (terminate_display s)) = 0%nat /\
  count is_draw (calls (terminate_display s)) = 0%nat.
Proof.
  unfold terminate_display, bind, get, calls; cbn.
  destruct (display s =? EGL_NO_DISPLAY); cbn;
    [repeat split; reflexivity|].
  destruct (context s =? EGL_NO_CONTEXT), (surface s =? EGL_NO_SURFACE);
    cbn; repeat split; reflexivity.
Qed.

(** C10. Whatever the state before, a partially constructed one left by a
    failed [init_display] included, after [terminate_display] the display,
    surface and context handles are the null handle and [initialized] is
    false. *)
Theorem terminate_display_resets (s : AppState) :
  handles_all_null (state (terminate_display s)) /\
  initialized (state (terminate_display s)) = false /\
  (forall a e,
     handles_all_null (state (terminate_display (state (init_display a e s)))) /\
     initialized (state (terminate_display (state (init_display a e s)))) = false).
Proof.
  assert (H : forall t, handles_all_null (state (terminate_display t)) /\
                        initialized (state (terminate_display t)) = false).
  { intros t. rewrite terminate_display_state. unfold handles_all_null; cbn.
    repeat split; reflexivity. }
  split; [apply H|]. split; [apply H|]. intros a e. apply H.
Qed.

(** C7. [terminate_display] is idempotent: running it a second time right
    after the first leaves the state exactly as the first left it, and the
    second run makes no EGL call at all (no unbind, destroy or terminate);
    its only call is the log line. The routine has no failure path. *)
Theorem terminate_display_idempotent (s : AppState) :
  state (terminate_display (state (terminate_display s))) =
    state (terminate_display s) /\
  calls (terminate_display (state (terminate_display s))) = [terminated_line] /\
  count is_teardown (calls (terminate_display (state (terminate_display s)))) = 0%nat.
Proof.
  assert (Hc : calls (terminate_display (state (terminate_display s))) =
               [terminated_line]).
  { apply terminate_display_released_calls.
    rewrite terminate_display_state. reflexivity. }
  split.
  - rewrite !terminate_display_state. reflexivity.
  - split; [exact Hc|]. rewrite Hc. reflexivity.
Qed.

(** ** [init_display] *)

Lemma init_display_success_iff (a : android_app) (e : EglEnv) (s : AppState) :
  value (init_display a e s) = true <-> failing_step e = None.
Proof.
  unfold init_display, failing_step, value, bind, get, modify, call, LOGE,
    query_surface; cbn.
  destruct (r_eglGetDisplay e =? EGL_NO_DISPLAY); cbn; [split; discriminate|].
  destruct (r_eglInitialize e =? 0); cbn; [split; discriminate|].
  destruct ((r_eglChooseConfig e =? 0) || (r_num_configs e =? 0)); cbn;
    [split; discriminate|].
  destruct (r_eglCreateWindowSurface e =? EGL_NO_SURFACE); cbn;
    [split; discriminate|].
  destruct (r_eglCreateContext e =? EGL_NO_CONTEXT); cbn;
    [split; discriminate|].
  destruct (r_eglMakeCurrent e =? 0); cbn; [split; discriminate|].
  destruct (r_query_width e), (r_query_height e); cbn; split; reflexivity.
Qed.

(** The state and the return value of a successful [init_display]. *)
Lemma init_display_success (a : android_app) (e : EglEnv) (s : AppState) :
  failing_step e = None ->
  value (init_display a e s) = true /\
  initialized (state (init_display a e s)) = true /\
  display (state (init_display a e s)) = r_eglGetDisplay e /\
  surface (state (init_display a e s)) = r_eglCreateWindowSurface e /\
  context (state (init_display a e s)) = r_eglCreateContext e /\
  has_focus (state (init_display a e s)) = has_focus s /\
  handles_all_set (state (init_display a e s)).
Proof.
  unfold init_display, failing_step, handles_all_set, value, state, bind, get,
    modify, call, LOGE, query_surface; cbn.
  destruct (r_eglGetDisplay e =? EGL_NO_DISPLAY) eqn:E1; cbn; [discriminate|].
  destruct (r_eglInitialize e =? 0); cbn; [discriminate|].
  destruct ((r_eglChooseConfig e =? 0) || (r_num_configs e =? 0)); cbn;
    [discriminate|].
  destruct (r_eglCreateWindowSurface e =? EGL_NO_SURFACE) eqn:E2; cbn;
    [discriminate|].
  destruct (r_eglCreateContext e =? EGL_NO_CONTEXT) eqn:E3; cbn;
    [discriminate|].
  destruct (r_eglMakeCurrent e =? 0); cbn; [discriminate|].
  apply Z.eqb_neq in E1, E2, E3.
  destruct (r_query_width e), (r_query_height e); cbn; intros _;
    repeat split; assumption.
Qed.

(** C1 (as the code has it). [init_display] has no unwinding on its failure
    paths. When it returns false, it gave up at one of its six tests, it
    made no teardown call, [initialized] and the dimensions are what they
    were before the call, and every handle an earlier step of this call had
    created is still stored in the state: the display connection (from the
    second test on), the surface (from the context step on) and the context
    (at the make-current step), none of them null. *)
Theorem init_display_failure_keeps_handles
    (a : android_app) (e : EglEnv) (s : AppState) :
  value (init_display a e s) = false ->
  exists f : SurfaceError,
    failing_step e = Some f /\
    initialized (state (init_display a e s)) = initialized s /\
    width (state (init_display a e s)) = width s /\
    height (state (init_display a e s)) = height s /\
    count is_teardown (calls (init_display a e s)) = 0%nat /\
    display (state (init_display a e s)) = r_eglGetDisplay e /\
    (display_created f = true ->
       display (state (init_display a e s)) <> EGL_NO_DISPLAY) /\
    (if surface_created f
     then surface (state (init_display a e s)) = r_eglCreateWindowSurface e /\
          surface (state (init_display a e s)) <> EGL_NO_SURFACE
     else surface (state (init_display a e s)) = EGL_NO_SURFACE \/
          surface (state (init_display a e s)) = surface s) /\
    (if context_created f
     then context (state (init_display a e s)) = r_eglCreateContext e /\
          context (state (init_display a e s)) <> EGL_NO_CONTEXT
     else context (state (init_display a e s)) = EGL_NO_CONTEXT \/
          context (state (init_display a e s)) = context s).
Proof.
  unfold init_display, failing_step, value, state, calls, bind, get,
    modify, call, LOGE, query_surface; cbn.
  destruct (r_eglGetDisplay e =? EGL_NO_DISPLAY) eqn:E1; cbn.
  { intros _. exists ConnectionFailed; cbn. repeat split; auto. discriminate. }
  apply Z.eqb_neq in E1.
  destruct (r_eglInitialize e =? 0); cbn.
  { intros _. exists InitFailed; cbn. repeat split; auto. }
  destruct ((r_eglChooseConfig e =? 0) || (r_num_configs e =? 0)); cbn.
  { intros _. exists NoMatchingConfig; cbn. repeat split; auto. }
  destruct (r_eglCreateWindowSurface e =? EGL_NO_SURFACE) eqn:E2; cbn.
  { intros _. exists SurfaceCreateFailed; cbn. apply Z.eqb_eq in E2.
    repeat split; auto. }
  apply Z.eqb_neq in E2.
  destruct (r_eglCreateContext e =? EGL_NO_CONTEXT) eqn:E3; cbn.
  { intros _. exists ContextCreateFailed; cbn. apply Z.eqb_eq in E3.
    repeat split; auto. }
  apply Z.eqb_neq in E3.
  destruct (r_eglMakeCurrent e =? 0); cbn.
  { intros _. exists MakeCurrentFailed; cbn.
    assert (Hs : (r_eglCreateWindowSurface e =? EGL_NO_SURFACE) = false)
      by (apply Z.eqb_neq; assumption).
    unfold count; cbn. rewrite Hs; cbn. repeat split; auto. }
  destruct (r_query_width e), (r_query_height e); cbn; discriminate.
Qed.

Lemma init_display_failure_keeps_handles_witness :
  exists f : SurfaceError,
    failing_step env_no_config = Some f /\
    initialized (state (init_display app_win env_no_config (initial_state 1)))
      = initialized (initial_state 1) /\
    display (state (init_display app_win env_no_config (initial_state 1))) = 11.
Proof.
  destruct (init_display_failure_keeps_handles app_win env_no_config
              (initial_state 1) eq_refl)
    as (f & Hf & Hi & _ & _ & _ & Hd & _).
  exists f. repeat split; assumption.
Defined.

(** C1 fails as stated: from the fresh state of [android_main], a call that
    finds no matching configuration returns false and leaves the display
    connection it opened in the state, so the state is not torn down. *)
Lemma init_display_failure_not_torn_down :
  value (init_display app_win env_no_config (initial_state 1)) = false /\
  failing_step env_no_config = Some NoMatchingConfig /\
  display (state (init_display app_win env_no_config (initial_state 1))) = 11 /\
  ~ fully_torn_down (state (init_display app_win env_no_config (initial_state 1))).
Proof.
  repeat split.
  intros [_ [H _]]. discriminate H.
Qed.

(** ** [handle_input] *)

(** C8. [handle_input] returns 1 (handled) exactly for events whose type is
    [AINPUT_EVENT_TYPE_MOTION], whatever their action code (down, up, move
    or any other value, with any bits above the action mask), and 0 (not
    handled) for events of every other type. It never touches the state. *)
Theorem handle_input_consumes_exactly_motion (event : AInputEvent) (s : AppState) :
  (value (handle_input event s) = 1 <-> ev_type event = AINPUT_EVENT_TYPE_MOTION) /\
  (value (handle_input event s) = 0 <-> ev_type event <> AINPUT_EVENT_TYPE_MOTION) /\
  state (handle_input event s) = s.
Proof.
  unfold handle_input, value, state, bind, LOGI, call, ret; cbn.
  destruct (Z.eqb_spec (ev_type event) AINPUT_EVENT_TYPE_MOTION) as [E|E].
  - destruct (Z.land (ev_action event) AMOTION_EVENT_ACTION_MASK
                =? AMOTION_EVENT_ACTION_DOWN),
             (Z.land (ev_action event) AMOTION_EVENT_ACTION_MASK
                =? AMOTION_EVENT_ACTION_UP),
             (Z.land (ev_action event) AMOTION_EVENT_ACTION_MASK
                =? AMOTION_EVENT_ACTION_MOVE); cbn;
      (split; [tauto|split; [|reflexivity]]);
      (split; [discriminate|intros H; contradiction]).
  - cbn. split; [|split; [|reflexivity]].
    + split; [discriminate|intros H; contradiction].
    + tauto.
Qed.

(** A motion event with an action outside down/up/move is consumed too. *)
Example handle_input_unknown_action :
  value (handle_input (mkAInputEvent AINPUT_EVENT_TYPE_MOTION 0x0105 0 0)
                      (initial_state 1)) = 1 /\
  value (handle_input (mkAInputEvent AINPUT_EVENT_TYPE_KEY 0 0 0)
                      (initial_state 1)) = 0.
Proof. split; reflexivity. Qed.

(** ** [handle_cmd] *)


(** C9. When [APP_CMD_INIT_WINDOW] is handled while [app->window] is null,
    [init_display] is not entered: the only call is the log line (so no
    EGL call is made), and the application state is returned unchanged,
    field for field; a state that was not initialized stays so. *)
Theorem init_window_without_window (a : android_app) (e : EglEnv) (s : AppState) :
  window a = NULL ->
  state (handle_cmd a e APP_CMD_INIT_WINDOW s) = s /\
  calls (handle_cmd a e APP_CMD_INIT_WINDOW s) = [init_window_line] /\
  (initialized s = false ->
   initialized (state (handle_cmd a e APP_CMD_INIT_WINDOW s)) = false).
Proof.
  intros Hw.
  assert (Hs : state (handle_cmd a e APP_CMD_INIT_WINDOW s) = s).
  { unfold handle_cmd, state, bind, LOGI, call; cbn. rewrite Hw. reflexivity. }
  split; [exact Hs|]. split.
  - unfold handle_cmd, calls, bind, LOGI, call; cbn. rewrite Hw. reflexivity.
  - rewrite Hs. trivial.
Qed.

Lemma init_window_without_window_witness :
  state (handle_cmd app0 env_ok APP_CMD_INIT_WINDOW (initial_state 1))
    = initial_state 1 /\
  calls (handle_cmd app0 env_ok APP_CMD_INIT_WINDOW (initial_state 1))
    = [init_window_line].
Proof.
  pose proof (init_window_without_window app0 env_ok (initial_state 1) eq_refl)
    as (Hs & Hc & _).
  split; assumption.
Defined.

(** C5. [APP_CMD_LOST_FOCUS] handled on an initialized state clears
    [has_focus] and renders one frame on the spot: one draw and exactly one
    buffer swap, on the stored display and surface. Nothing else in the
    state changes, and since [has_focus] is now false the next
    [ALooper_pollAll] is called with timeout -1, that is, blocking. *)
Theorem lost_focus_renders_one_frame (a : android_app) (e : EglEnv) (s : AppState) :
  initialized s = true ->
  state (handle_cmd a e APP_CMD_LOST_FOCUS s) = set_has_focus false s /\
  has_focus (state (handle_cmd a e APP_CMD_LOST_FOCUS s)) = false /\
  calls (handle_cmd a e APP_CMD_LOST_FOCUS s) =
    [ lost_focus_line;
      glClearColor clear_r clear_g clear_b clear_a;
      glClear (Z.lor GL_COLOR_BUFFER_BIT GL_DEPTH_BUFFER_BIT);
      eglSwapBuffers (display s) (surface s) ] /\
  count is_present (calls (handle_cmd a e APP_CMD_LOST_FOCUS s)) = 1%nat /\
  poll_timeout (state (handle_cmd a e APP_CMD_LOST_FOCUS s)) = -1 /\
  poll_mode (poll_timeout (state (handle_cmd a e APP_CMD_LOST_FOCUS s))) = Blocking.
Proof.
  intros Hi.
  unfold handle_cmd, render_frame, state, calls, bind, get, modify, LOGI, call;
    cbn.
  rewrite Hi; cbn. repeat split; reflexivity.
Qed.

Lemma lost_focus_renders_one_frame_witness :
  count is_present
    (calls (handle_cmd app_win env_ok APP_CMD_LOST_FOCUS
              (state (init_display app_win env_ok (initial_state 1))))) = 1%nat.
Proof.
  pose proof (lost_focus_renders_one_frame app_win env_ok
                (state (init_display app_win env_ok (initial_state 1))) eq_refl)
    as (_ & _ & _ & Hc & _).
  exact Hc.
Defined.

(** ** The surface invariant along runs *)

Lemma surface_invariant_has_focus (v : bool) (s : AppState) :
  surface_invariant s -> surface_invariant (set_has_focus v s).
Proof. intros H. exact H. Qed.

Lemma surface_invariant_terminate (s : AppState) :
  surface_invariant (state (terminate_display s)).
Proof.
  rewrite terminate_display_state. split; cbn; intros H.
  - discriminate H.
  - repeat split.
Qed.

Lemma surface_invariant_init_success (a : android_app) (e : EglEnv) (s : AppState) :
  failing_step e = None ->
  surface_invariant (state (init_display a e s)).
Proof.
  intros H.
  destruct (init_display_success a e s H) as (_ & Hi & _ & _ & _ & _ & Hs).
  split; intros Hi'; [exact Hs | congruence].
Qed.

Lemma handle_cmd_invariant (a : android_app) (e : EglEnv) (cmd : Z) (s : AppState) :
  surface_invariant s ->
  (cmd = APP_CMD_INIT_WINDOW -> window a <> NULL -> failing_step e = None) ->
  surface_invariant (state (handle_cmd a e cmd s)).
Proof.
  intros Hinv Hok. unfold handle_cmd.
  destruct (Z.eqb_spec cmd APP_CMD_INIT_WINDOW) as [E1|E1].
  { rewrite state_bind.
    destruct (Z.eqb_spec (window a) NULL) as [Ew|Ew]; cbn [negb].
    - exact Hinv.
    - rewrite state_bind. apply surface_invariant_init_success; auto. }
  destruct (cmd =? APP_CMD_TERM_WINDOW).
  { rewrite state_bind. apply surface_invariant_terminate. }
  destruct (cmd =? APP_CMD_GAINED_FOCUS); [exact Hinv|].
  destruct (cmd =? APP_CMD_LOST_FOCUS).
  { rewrite !state_bind, render_frame_state. exact Hinv. }
  destruct (cmd =? APP_CMD_PAUSE); [exact Hinv|].
  destruct (cmd =? APP_CMD_RESUME); [exact Hinv|].
  destruct (cmd =? APP_CMD_DESTROY); exact Hinv.
Qed.

Lemma handle_input_state (event : AInputEvent) (s : AppState) :
  state (handle_input event s) = s.
Proof.
  unfold handle_input, state, bind, LOGI, call, ret; cbn.
  destruct (ev_type event =? AINPUT_EVENT_TYPE_MOTION); [|reflexivity].
  destruct (Z.land (ev_action event) AMOTION_EVENT_ACTION_MASK
              =? AMOTION_EVENT_ACTION_DOWN),
           (Z.land (ev_action event) AMOTION_EVENT_ACTION_MASK
              =? AMOTION_EVENT_ACTION_UP),
           (Z.land (ev_action event) AMOTION_EVENT_ACTION_MASK
              =? AMOTION_EVENT_ACTION_MOVE); reflexivity.
Qed.

Lemma dispatch_inputs_state (events : list AInputEvent) (s : AppState) :
  fst (dispatch_inputs events s) = s.
Proof.
  revert s. induction events as [|ev rest IH]; intros s; cbn.
  - reflexivity.
  - rewrite IH. apply handle_input_state.
Qed.

Lemma process_invariant (src : Source) (c : Config) :
  surface_invariant (c_state c) ->
  acquire_succeeds (mkPollAnswer 0 (Some src)) = true ->
  surface_invariant (c_state (fst (process src c))).
Proof.
  intros Hinv Hok. destruct src as [cmd w e|events]; cbn.
  - apply handle_cmd_invariant; [exact Hinv|].
    intros Ec Hw. subst cmd. cbn in Hw.
    unfold acquire_succeeds in Hok; cbn in Hok.
    destruct (Z.eqb_spec w NULL) as [E|E]; [contradiction|].
    cbn in Hok. destruct (failing_step e); [discriminate|reflexivity].
  - rewrite dispatch_inputs_state. exact Hinv.
Qed.

Lemma loop_body_invariant (p : PollAnswer) (c : Config) :
  surface_invariant (c_state c) ->
  acquire_succeeds p = true ->
  match fst (loop_body p c) with
  | inl c' | inr c' => surface_invariant (c_state c')
  end.
Proof.
  intros Hinv Hok. unfold loop_body.
  destruct (poll_ret p >=? 0).
  - assert (H1 : surface_invariant
                   (c_state (fst match poll_source p with
                                 | Some src => process src c
                                 | None => (c, [])
                                 end))).
    { destruct p as [r [src|]]; cbn in *.
      - apply process_invariant; assumption.
      - exact Hinv. }
    destruct (negb (destroyRequested (c_app (fst _)) =? 0)); cbn [fst c_state].
    + rewrite state_bind. apply surface_invariant_terminate.
    + exact H1.
  - cbn. destruct (has_focus (c_state c)).
    + rewrite render_frame_state. exact Hinv.
    + exact Hinv.
Qed.

Lemma main_loop_invariant (script : list PollAnswer) (c : Config) :
  surface_invariant (c_state c) ->
  forallb acquire_succeeds script = true ->
  surface_invariant (c_state (run_config (main_loop script c))).
Proof.
  revert c. induction script as [|p rest IH]; intros c Hinv Hok; cbn.
  - exact Hinv.
  - cbn in Hok. apply andb_prop in Hok. destruct Hok as [Hp Hrest].
    pose proof (loop_body_invariant p c Hinv Hp) as Hb.
    destruct (loop_body p c) as [[c'|c'] l]; cbn in *.
    + exact Hb.
    + apply IH; assumption.
Qed.

Lemma surface_invariant_initial (app_ptr : Z) :
  surface_invariant (initial_state app_ptr).
Proof.
  split; cbn; intros H; [discriminate H | repeat split].
Qed.

(** The invariant along runs without any failure. Started from the state
    [android_main] sets up, and run against any script of looper answers in
    which no [init_display] fails, the program is always in a state where
    [initialized] true means the display, surface and context handles are
    all non-null, and [initialized] false means all three are null. *)
Theorem surface_invariant_when_acquires_succeed
    (app_ptr : Z) (a : android_app) (script : list PollAnswer) :
  forallb acquire_succeeds script = true ->
  surface_invariant (c_state (run_config (android_main app_ptr a script))).
Proof.
  intros Hok. unfold android_main; cbn.
  apply main_loop_invariant; [apply surface_invariant_initial | exact Hok].
Qed.

Lemma surface_invariant_when_acquires_succeed_witness :
  surface_invariant
    (c_state (run_config
       (android_main 1 app0
          [ cmd_answer APP_CMD_INIT_WINDOW 77 env_ok;
            cmd_answer APP_CMD_GAINED_FOCUS 0 env_ok;
            timeout_answer;
            cmd_answer APP_CMD_TERM_WINDOW 0 env_ok ]))).
Proof.
  apply (surface_invariant_when_acquires_succeed 1 app0
          [ cmd_answer APP_CMD_INIT_WINDOW 77 env_ok;
            cmd_answer APP_CMD_GAINED_FOCUS 0 env_ok;
            timeout_answer;
            cmd_answer APP_CMD_TERM_WINDOW 0 env_ok ]).
  reflexivity.
Defined.

(** C2 fails as stated: after one [APP_CMD_INIT_WINDOW] whose
    [init_display] finds no matching configuration, [initialized] is false
    while the display handle is not null. *)
Lemma surface_invariant_broken_by_failed_acquire :
  initialized (c_state (run_config
     (android_main 1 app0 [cmd_answer APP_CMD_INIT_WINDOW 77 env_no_config])))
    = false /\
  display (c_state (run_config
     (android_main 1 app0 [cmd_answer APP_CMD_INIT_WINDOW 77 env_no_config])))
    = 11 /\
  ~ surface_invariant (c_state (run_config
     (android_main 1 app0 [cmd_answer APP_CMD_INIT_WINDOW 77 env_no_config]))).
Proof.
  split; [reflexivity|]. split; [reflexivity|].
  intros [_ H]. destruct (H eq_refl) as [Hd _]. discriminate Hd.
Qed.

(** The other half fails as well: a successful [init_display] followed by
    one that cannot open the display leaves [initialized] true with a null
    display handle. *)
Example initialized_with_null_display :
  initialized (c_state (run_config
     (android_main 1 app0 [ cmd_answer APP_CMD_INIT_WINDOW 77 env_ok;
                            cmd_answer APP_CMD_INIT_WINDOW 77 env_no_display ])))
    = true /\
  display (c_state (run_config
     (android_main 1 app0 [ cmd_answer APP_CMD_INIT_WINDOW 77 env_ok;
                            cmd_answer APP_CMD_INIT_WINDOW 77 env_no_display ])))
    = EGL_NO_DISPLAY.
Proof. split; reflexivity. Qed.

(** ** Runs of the main loop *)

Lemma prepend_app (l1 l2 : list Call) (r : Run) :
  prepend l1 (prepend l2 r) = prepend (l1 ++ l2) r.
Proof. unfold prepend; cbn. rewrite app_assoc. reflexivity. Qed.

(** A run that stands at a poll goes on with the rest of the script. *)
Lemma main_loop_app (pre post : list PollAnswer) (c : Config) :
  run_status (main_loop pre c) = AtPoll ->
  main_loop (pre ++ post) c =
  prepend (run_calls (main_loop pre c))
          (main_loop post (run_config (main_loop pre c))).
Proof.
  revert c. induction pre as [|p rest IH]; intros c Hst; cbn.
  - destruct (main_loop post c); reflexivity.
  - cbn in Hst. destruct (loop_body p c) as [[c'|c'] l]; cbn in *.
    + discriminate Hst.
    + rewrite (IH c' Hst), prepend_app. reflexivity.
Qed.

(** The first call of every loop body is the poll, with the timeout that
    [has_focus] selects. *)
Lemma loop_body_polls_first (p : PollAnswer) (c : Config) :
  exists tail,
    snd (loop_body p c) = ALooper_pollAll (poll_timeout (c_state c)) :: tail.
Proof.
  unfold loop_body.
  destruct (poll_ret p >=? 0).
  - destruct (negb _); cbn; eexists; reflexivity.
  - cbn; eexists; reflexivity.
Qed.

Lemma poll_mode_by_focus (s : AppState) :
  poll_mode (poll_timeout s) = if has_focus s then NonBlocking else Blocking.
Proof. unfold poll_timeout. destruct (has_focus s); reflexivity. Qed.

(** C4. At every iteration, that is, whenever a run stands at the poll and
    the looper gives one more answer, the next call the program makes is
    [ALooper_pollAll] with timeout 0 (non-blocking) if [has_focus] is true
    at that moment and -1 (blocking) if it is false. *)
Theorem poll_blocks_iff_unfocused
    (pre : list PollAnswer) (p : PollAnswer) (rest : list PollAnswer) (c : Config) :
  run_status (main_loop pre c) = AtPoll ->
  exists tail,
    run_calls (main_loop (pre ++ p :: rest) c) =
      run_calls (main_loop pre c) ++
      ALooper_pollAll (poll_timeout (c_state (run_config (main_loop pre c)))) :: tail /\
    poll_timeout (c_state (run_config (main_loop pre c))) =
      (if has_focus (c_state (run_config (main_loop pre c))) then 0 else -1) /\
    poll_mode (poll_timeout (c_state (run_config (main_loop pre c)))) =
      (if has_focus (c_state (run_config (main_loop pre c)))
       then NonBlocking else Blocking).
Proof.
  intros Hst. rewrite (main_loop_app pre (p :: rest) c Hst).
  set (c1 := run_config (main_loop pre c)).
  destruct (loop_body_polls_first p c1) as [tail Ht].
  cbn [main_loop]. destruct (loop_body p c1) as [[c'|c'] l]; cbn in Ht; subst l.
  - exists tail. cbn. split; [reflexivity|]. split; [reflexivity|].
    apply poll_mode_by_focus.
  - exists (tail ++ run_calls (main_loop rest c')). cbn.
    split; [reflexivity|]. split; [reflexivity|]. apply poll_mode_by_focus.
Qed.

Lemma poll_blocks_iff_unfocused_witness :
  exists tail,
    run_calls (main_loop
       ([cmd_answer APP_CMD_GAINED_FOCUS 0 env_ok] ++ timeout_answer :: [])
       (mkConfig app0 (initial_state 1))) =
      run_calls (main_loop [cmd_answer APP_CMD_GAINED_FOCUS 0 env_ok]
                   (mkConfig app0 (initial_state 1))) ++
      ALooper_pollAll 0 :: tail.
Proof.
  destruct (poll_blocks_iff_unfocused
              [cmd_answer APP_CMD_GAINED_FOCUS 0 env_ok] timeout_answer []
              (mkConfig app0 (initial_state 1)) eq_refl)
    as (tail & Hc & _).
  exists tail. exact Hc.
Defined.

(** What the loop does with an answer that delivers [APP_CMD_DESTROY]. *)
Lemma loop_body_destroy (ret : Z) (w : handle) (e : EglEnv) (c : Config) :
  0 <= ret ->
  loop_body (mkPollAnswer ret (Some (SrcCmd APP_CMD_DESTROY w e))) c =
  (inl (mkConfig (mk_android_app (window (c_app c)) 1)
                 (state (terminate_display (c_state c)))),
   [ALooper_pollAll (poll_timeout (c_state c)); destroy_line; exiting_line]
     ++ calls (terminate_display (c_state c))).
Proof.
  intros Hret. unfold loop_body; cbn [poll_ret poll_source].
  assert (Hge : (ret >=? 0) = true) by (apply Z.geb_le; exact Hret).
  rewrite Hge.
  assert (Hp : process (SrcCmd APP_CMD_DESTROY w e) c =
               (mkConfig (mk_android_app (window (c_app c)) 1) (c_state c),
                [destroy_line])) by reflexivity.
  rewrite Hp. cbn [fst snd c_app c_state destroyRequested Z.eqb negb].
  rewrite state_bind, calls_bind. reflexivity.
Qed.

(** C3. Let a run stand at the poll, and let the looper's next answer
    deliver [APP_CMD_DESTROY]. Then [android_main] returns within that very
    loop body, whatever answers the looper would still have: after the
    command's log line the program logs that it exits and runs
    [terminate_display] once, on the state the command left; from the
    delivery on there is exactly one [terminate_display], no
    [ALooper_pollAll] and no draw or buffer swap. *)
Theorem destroy_releases_once_and_returns
    (pre post : list PollAnswer) (c : Config) (ret : Z) (w : handle) (e : EglEnv) :
  run_status (main_loop pre c) = AtPoll ->
  0 <= ret ->
  run_status
    (main_loop (pre ++ mkPollAnswer ret (Some (SrcCmd APP_CMD_DESTROY w e)) :: post) c)
    = Returned /\
  c_state (run_config
    (main_loop (pre ++ mkPollAnswer ret (Some (SrcCmd APP_CMD_DESTROY w e)) :: post) c))
    = state (terminate_display (c_state (run_config (main_loop pre c)))) /\
  run_calls
    (main_loop (pre ++ mkPollAnswer ret (Some (SrcCmd APP_CMD_DESTROY w e)) :: post) c)
    = run_calls (main_loop pre c) ++
      ALooper_pollAll (poll_timeout (c_state (run_config (main_loop pre c)))) ::
      destroy_line :: exiting_line ::
      calls (terminate_display (c_state (run_config (main_loop pre c)))) /\
  count is_terminated_line
    (destroy_line :: exiting_line ::
     calls (terminate_display (c_state (run_config (main_loop pre c))))) = 1%nat /\
  count is_poll
    (destroy_line :: exiting_line ::
     calls (terminate_display (c_state (run_config (main_loop pre c))))) = 0%nat /\
  count is_present
    (destroy_line :: exiting_line ::
     calls (terminate_display (c_state (run_config (main_loop pre c))))) = 0%nat /\
  count is_draw
    (destroy_line :: exiting_line ::
     calls (terminate_display (c_state (run_config (main_loop pre c))))) = 0%nat.
Proof.
  intros Hst Hret.
  rewrite (main_loop_app pre _ c Hst).
  set (c1 := run_config (main_loop pre c)).
  cbn [main_loop]. rewrite (loop_body_destroy ret w e c1 Hret).
  destruct (terminate_display_counts (c_state c1)) as (H1 & H2 & H3 & H4).
  repeat split; try reflexivity.
  - change (destroy_line :: exiting_line :: calls (terminate_display (c_state c1)))
      with ([destroy_line; exiting_line] ++ calls (terminate_display (c_state c1))).
    rewrite count_app, H1. reflexivity.
  - change (destroy_line :: exiting_line :: calls (terminate_display (c_state c1)))
      with ([destroy_line; exiting_line] ++ calls (terminate_display (c_state c1))).
    rewrite count_app, H2. reflexivity.
  - change (destroy_line :: exiting_line :: calls (terminate_display (c_state c1)))
      with ([destroy_line; exiting_line] ++ calls (terminate_display (c_state c1))).
    rewrite count_app, H3. reflexivity.
  - change (destroy_line :: exiting_line :: calls (terminate_display (c_state c1)))
      with ([destroy_line; exiting_line] ++ calls (terminate_display (c_state c1))).
    rewrite count_app, H4. reflexivity.
Qed.

Lemma destroy_releases_once_and_returns_witness :
  run_status
    (main_loop ([ cmd_answer APP_CMD_INIT_WINDOW 77 env_ok;
                  cmd_answer APP_CMD_GAINED_FOCUS 0 env_ok ] ++
                mkPollAnswer 1 (Some (SrcCmd APP_CMD_DESTROY 0 env_ok)) ::
                [timeout_answer])
               (mkConfig app0 (initial_state 1)))
    = Returned.
Proof.
  refine (proj1 (destroy_releases_once_and_returns
                   [ cmd_answer APP_CMD_INIT_WINDOW 77 env_ok;
                     cmd_answer APP_CMD_GAINED_FOCUS 0 env_ok ]
                   [timeout_answer] (mkConfig app0 (initial_state 1))
                   1 0 env_ok eq_refl _)).
  discriminate.
Defined.

(** In a run, the frame forced by [APP_CMD_LOST_FOCUS] comes on top of the
    frames of the focused iterations: the body that delivers the command
    makes one buffer swap and leaves the loop at a blocking poll. *)
Lemma lost_focus_in_loop
    (pre : list PollAnswer) (c : Config) (ret : Z) (w : handle) (e : EglEnv) :
  run_status (main_loop pre c) = AtPoll ->
  0 <= ret ->
  initialized (c_state (run_config (main_loop pre c))) = true ->
  destroyRequested (c_app (run_config (main_loop pre c))) = 0 ->
  run_status
    (main_loop (pre ++ [mkPollAnswer ret (Some (SrcCmd APP_CMD_LOST_FOCUS w e))]) c)
    = AtPoll /\
  count is_present (run_calls
    (main_loop (pre ++ [mkPollAnswer ret (Some (SrcCmd APP_CMD_LOST_FOCUS w e))]) c))
    = S (count is_present (run_calls (main_loop pre c))) /\
  poll_timeout (c_state (run_config
    (main_loop (pre ++ [mkPollAnswer ret (Some (SrcCmd APP_CMD_LOST_FOCUS w e))]) c)))
    = -1.
Proof.
  intros Hst Hret Hi Hd.
  rewrite (main_loop_app pre _ c Hst).
  set (c1 := run_config (main_loop pre c)) in *.
  assert (Hge : (ret >=? 0) = true) by (apply Z.geb_le; exact Hret).
  assert (Hp : process (SrcCmd APP_CMD_LOST_FOCUS w e) c1 =
               (mkConfig (c_app c1) (set_has_focus false (c_state c1)),
                [ lost_focus_line;
                  glClearColor clear_r clear_g clear_b clear_a;
                  glClear (Z.lor GL_COLOR_BUFFER_BIT GL_DEPTH_BUFFER_BIT);
                  eglSwapBuffers (display (c_state c1)) (surface (c_state c1)) ])).
  { unfold process, handle_cmd, render_frame, state, calls, bind, get, modify,
      LOGI, call; cbn.
    rewrite Hi. reflexivity. }
  cbn [main_loop]. unfold loop_body; cbn [poll_ret poll_source].
  rewrite Hge, Hp. cbn [fst snd c_app c_state]. rewrite Hd.
  cbn [Z.eqb negb prepend run_status run_config run_calls c_state].
  repeat split.
  rewrite count_app. cbn. lia.
Qed.

(** ** Concrete runs *)

(** Each of the six tests of [init_display] can be the one that fails. *)
Lemma every_step_can_fail (f : SurfaceError) :
  exists e : EglEnv, failing_step e = Some f.
Proof.
  destruct f.
  - exists (mkEglEnv 0 1 1 5 1 22 33 1 None None "" "" ""); reflexivity.
  - exists (mkEglEnv 11 0 1 5 1 22 33 1 None None "" "" ""); reflexivity.
  - exists (mkEglEnv 11 1 0 5 1 22 33 1 None None "" "" ""); reflexivity.
  - exists (mkEglEnv 11 1 1 5 1 0 33 1 None None "" "" ""); reflexivity.
  - exists (mkEglEnv 11 1 1 5 1 22 0 1 None None "" "" ""); reflexivity.
  - exists (mkEglEnv 11 1 1 5 1 22 33 0 None None "" "" ""); reflexivity.
Qed.

(** A failure at the make-current step keeps all three handles. *)
Example make_current_failure_keeps_all :
  state (init_display app_win
           (mkEglEnv 11 1 1 5 1 22 33 0 None None "" "" "") (initial_state 1))
  = mkAppState 1 11 22 33 0 0 false false.
Proof. reflexivity. Qed.

(** Window, focus, one idle frame, focus lost: two frames in all, the
    second one forced by the command, and the run stands at a blocking
    poll. *)
Example focus_lost_run :
  count is_present (run_calls (android_main 1 app0
     [ cmd_answer APP_CMD_INIT_WINDOW 77 env_ok;
       cmd_answer APP_CMD_GAINED_FOCUS 0 env_ok;
       timeout_answer;
       cmd_answer APP_CMD_LOST_FOCUS 0 env_ok ])) = 2%nat /\
  poll_timeout (c_state (run_config (android_main 1 app0
     [ cmd_answer APP_CMD_INIT_WINDOW 77 env_ok;
       cmd_answer APP_CMD_GAINED_FOCUS 0 env_ok;
       timeout_answer;
       cmd_answer APP_CMD_LOST_FOCUS 0 env_ok ]))) = -1.
Proof. split; reflexivity. Qed.

(** Window made available, then taken away: everything released, and a
    frame requested afterwards does nothing. *)
Example window_round_trip :
  c_state (run_config (android_main 1 app0
     [ cmd_answer APP_CMD_INIT_WINDOW 77 env_ok;
       cmd_answer APP_CMD_TERM_WINDOW 0 env_ok ]))
    = mkAppState 1 0 0 0 1920 1200 false false /\
  calls (render_frame (c_state (run_config (android_main 1 app0
     [ cmd_answer APP_CMD_INIT_WINDOW 77 env_ok;
       cmd_answer APP_CMD_TERM_WINDOW 0 env_ok ])))) = [].
Proof. split; reflexivity. Qed.

(** With focus but no surface, idle iterations poll without blocking and
    draw nothing. *)
Example focused_without_surface :
  run_calls (main_loop [timeout_answer; timeout_answer]
               (mkConfig app0 (set_has_focus true (initial_state 1))))
  = [ALooper_pollAll 0; ALooper_pollAll 0].
Proof. reflexivity. Qed.

(** * Further properties of the routines *)

(** ** [init_display], path by path *)

(** Splits a goal about [init_display a e s] along the tests of the
    routine, in program order; the last goal is the successful path. *)
Ltac init_display_paths e :=
  unfold init_display, query_surface, value, state, calls, bind, get, modify,
    call, LOGE, LOGI, ret; cbn;
  destruct (r_eglGetDisplay e =? EGL_NO_DISPLAY) eqn:E1; cbn;
  [| destruct (r_eglInitialize e =? 0) eqn:E2; cbn;
     [| destruct ((r_eglChooseConfig e =? 0) || (r_num_configs e =? 0)) eqn:E3; cbn;
        [| destruct (r_eglCreateWindowSurface e =? EGL_NO_SURFACE) eqn:E4; cbn;
           [| destruct (r_eglCreateContext e =? EGL_NO_CONTEXT) eqn:E5; cbn;
              [| destruct (r_eglMakeCurrent e =? 0) eqn:E6; cbn;
                 [| destruct (r_query_width e), (r_query_height e); cbn ]]]]]].

Lemma init_display_frame (a : android_app) (e : EglEnv) (s : AppState) :
  app (state (init_display a e s)) = app s /\
  has_focus (state (init_display a e s)) = has_focus s.
Proof. init_display_paths e; split; reflexivity. Qed.

Lemma init_display_no_poll (a : android_app) (e : EglEnv) (s : AppState) :
  count is_poll (calls (init_display a e s)) = 0%nat.
Proof. init_display_paths e; reflexivity. Qed.

Lemma init_display_no_present (a : android_app) (e : EglEnv) (s : AppState) :
  forallb live_args (calls (init_display a e s)) = true.
Proof.
  init_display_paths e; try reflexivity; rewrite E1; reflexivity.
Qed.

(** X1. [init_display] returns true exactly when the platform gives a good
    answer at each of its tests: a display, a successful initialization, a
    successful configuration choice that found at least one configuration,
    a surface, a context, and a successful make-current. *)
Theorem init_display_returns_true_iff (a : android_app) (e : EglEnv) (s : AppState) :
  value (init_display a e s) = true <->
  r_eglGetDisplay e <> EGL_NO_DISPLAY /\
  r_eglInitialize e <> 0 /\
  r_eglChooseConfig e <> 0 /\
  r_num_configs e <> 0 /\
  r_eglCreateWindowSurface e <> EGL_NO_SURFACE /\
  r_eglCreateContext e <> EGL_NO_CONTEXT /\
  r_eglMakeCurrent e <> 0.
Proof.
  rewrite init_display_success_iff. unfold failing_step.
  destruct (Z.eqb_spec (r_eglGetDisplay e) EGL_NO_DISPLAY) as [E1|E1];
    [split; [discriminate | tauto]|].
  destruct (Z.eqb_spec (r_eglInitialize e) 0) as [E2|E2];
    [split; [discriminate | tauto]|].
  destruct (Z.eqb_spec (r_eglChooseConfig e) 0) as [E3|E3]; cbn [orb];
    [split; [discriminate | tauto]|].
  destruct (Z.eqb_spec (r_num_configs e) 0) as [E4|E4];
    [split; [discriminate | tauto]|].
  destruct (Z.eqb_spec (r_eglCreateWindowSurface e) EGL_NO_SURFACE) as [E5|E5];
    [split; [discriminate | tauto]|].
  destruct (Z.eqb_spec (r_eglCreateContext e) EGL_NO_CONTEXT) as [E6|E6];
    [split; [discriminate | tauto]|].
  destruct (Z.eqb_spec (r_eglMakeCurrent e) 0) as [E7|E7];
    [split; [discriminate | tauto]|].
  split; [intros _; repeat split; assumption | reflexivity].
Qed.

(** X2. A successful [init_display] stores the three handles the platform
    returned and sets [initialized]; the width and height are the answers
    of the two surface queries, a query that failed leaving the previous
    value in place; [has_focus] and [app] are untouched; and the last call
    sets the viewport to the full stored width and height. *)
Theorem init_display_success_effect (a : android_app) (e : EglEnv) (s : AppState) :
  value (init_display a e s) = true ->
  initialized (state (init_display a e s)) = true /\
  display (state (init_display a e s)) = r_eglGetDisplay e /\
  surface (state (init_display a e s)) = r_eglCreateWindowSurface e /\
  context (state (init_display a e s)) = r_eglCreateContext e /\
  width (state (init_display a e s)) =
    match r_query_width e with Some v => v | None => width s end /\
  height (state (init_display a e s)) =
    match r_query_height e with Some v => v | None => height s end /\
  has_focus (state (init_display a e s)) = has_focus s /\
  app (state (init_display a e s)) = app s /\
  exists before,
    calls (init_display a e s) =
    before ++ [glViewport 0 0 (width (state (init_display a e s)))
                              (height (state (init_display a e s)))].
Proof.
  init_display_paths e; intros H; try discriminate H;
    repeat split;
    match goal with
    | |- exists before, ?l = _ => exists (removelast l); reflexivity
    end.
Qed.

Lemma init_display_success_effect_witness :
  width (state (init_display app_win
          (mkEglEnv 11 1 1 5 1 22 33 1 None (Some 1200) "v" "r" "3.0")
          (initial_state 1))) = 0 /\
  height (state (init_display app_win
          (mkEglEnv 11 1 1 5 1 22 33 1 None (Some 1200) "v" "r" "3.0")
          (initial_state 1))) = 1200.
Proof.
  destruct (init_display_success_effect app_win
              (mkEglEnv 11 1 1 5 1 22 33 1 None (Some 1200) "v" "r" "3.0")
              (initial_state 1) eq_refl)
    as (_ & _ & _ & _ & Hw & Hh & _).
  split; [exact Hw | exact Hh].
Defined.

(** X3. [init_display] never releases anything, on any path and from any
    state: it makes no unbind, destroy or terminate call, so handles that
    the state held before the call are overwritten, not destroyed. *)
Theorem init_display_never_tears_down (a : android_app) (e : EglEnv) (s : AppState) :
  count is_teardown (calls (init_display a e s)) = 0%nat.
Proof.
  init_display_paths e; unfold count; cbn; try rewrite E4; reflexivity.
Qed.

(** X4. [init_display] logs an error line exactly when it fails: one line
    on a failing path, as the last call of the routine, and none on the
    successful path. *)
Theorem init_display_error_line (a : android_app) (e : EglEnv) (s : AppState) :
  count is_error_line (calls (init_display a e s)) =
    (if value (init_display a e s) then 0 else 1)%nat /\
  (value (init_display a e s) = false ->
   exists before fmt,
     calls (init_display a e s) =
     before ++ [android_log_print ANDROID_LOG_ERROR LOG_TAG fmt []]).
Proof.
  init_display_paths e; (split; [reflexivity|]); intros H;
    try discriminate H;
    match goal with
    | |- exists before fmt, ?l = _ =>
        exists (removelast l); cbn; eexists; reflexivity
    end.
Qed.

(** X5. [init_display] stops at its first failing test: it initializes only
    a display it obtained, chooses a configuration only after a successful
    initialization, creates the surface only once a configuration was
    found, creates the context only once the surface exists, and makes
    current only once the context exists. Each of these calls is made at
    most once. *)
Theorem init_display_stops_at_failure (a : android_app) (e : EglEnv) (s : AppState) :
  count is_initialize (calls (init_display a e s)) =
    Nat.b2n (negb (r_eglGetDisplay e =? EGL_NO_DISPLAY)) /\
  count is_choose_config (calls (init_display a e s)) =
    Nat.b2n (negb (r_eglGetDisplay e =? EGL_NO_DISPLAY) &&
             negb (r_eglInitialize e =? 0)) /\
  count is_create_surface (calls (init_display a e s)) =
    Nat.b2n (negb (r_eglGetDisplay e =? EGL_NO_DISPLAY) &&
             negb (r_eglInitialize e =? 0) &&
             negb ((r_eglChooseConfig e =? 0) || (r_num_configs e =? 0))) /\
  count is_create_context (calls (init_display a e s)) =
    Nat.b2n (negb (r_eglGetDisplay e =? EGL_NO_DISPLAY) &&
             negb (r_eglInitialize e =? 0) &&
             negb ((r_eglChooseConfig e =? 0) || (r_num_configs e =? 0)) &&
             negb (r_eglCreateWindowSurface e =? EGL_NO_SURFACE)) /\
  count is_make_current (calls (init_display a e s)) =
    Nat.b2n (negb (r_eglGetDisplay e =? EGL_NO_DISPLAY) &&
             negb (r_eglInitialize e =? 0) &&
             negb ((r_eglChooseConfig e =? 0) || (r_num_configs e =? 0)) &&
             negb (r_eglCreateWindowSurface e =? EGL_NO_SURFACE) &&
             negb (r_eglCreateContext e =? EGL_NO_CONTEXT)).
Proof.
  init_display_paths e; repeat split; reflexivity.
Qed.

(** ** [terminate_display], call by call *)

Lemma terminate_display_log_last (s : AppState) :
  exists before, calls (terminate_display s) = before ++ [terminated_line].
Proof.
  unfold terminate_display, calls, bind, get, modify, call, LOGI, ret; cbn.
  destruct (display s =? EGL_NO_DISPLAY); cbn;
    [exists []; reflexivity|].
  destruct (context s =? EGL_NO_CONTEXT), (surface s =? EGL_NO_SURFACE); cbn;
    match goal with
    | |- exists before, ?l = _ => exists (removelast l); reflexivity
    end.
Qed.

(** X6. [terminate_display] never hands a null handle to EGL: whatever the
    state, every unbind, destroy and terminate call it makes names a
    non-null display, and the context and the surface it destroys are
    non-null. *)
Theorem terminate_display_live_args (s : AppState) :
  forallb live_args (calls (terminate_display s)) = true.
Proof.
  unfold terminate_display, calls, bind, get, modify, call, LOGI, ret; cbn.
  destruct (display s =? EGL_NO_DISPLAY) eqn:Ed; cbn; [reflexivity|].
  destruct (context s =? EGL_NO_CONTEXT) eqn:Ec,
           (surface s =? EGL_NO_SURFACE) eqn:Es; cbn;
    rewrite ?Ed, ?Ec, ?Es; reflexivity.
Qed.

(** X7. On a state that holds all three handles, [terminate_display]
    releases them in this order: it unbinds the current context and
    surface, destroys the context, destroys the surface, terminates the
    display connection, and logs. *)
Theorem terminate_display_release_order (s : AppState) :
  handles_all_set s ->
  calls (terminate_display s) =
    [ eglMakeCurrent (display s) EGL_NO_SURFACE EGL_NO_SURFACE EGL_NO_CONTEXT;
      eglDestroyContext (display s) (context s);
      eglDestroySurface (display s) (surface s);
      eglTerminate (display s);
      terminated_line ].
Proof.
  intros (Hd & Hs & Hc).
  apply Z.eqb_neq in Hd, Hs, Hc.
  unfold terminate_display, calls, bind, get, modify, call, LOGI, ret; cbn.
  rewrite Hd; cbn. rewrite Hc, Hs; reflexivity.
Qed.

Lemma terminate_display_release_order_witness :
  calls (terminate_display (mkAppState 1 11 22 33 1920 1200 true true)) =
    [ eglMakeCurrent 11 0 0 0; eglDestroyContext 11 33;
      eglDestroySurface 11 22; eglTerminate 11; terminated_line ].
Proof.
  apply (terminate_display_release_order
           (mkAppState 1 11 22 33 1920 1200 true true)).
  repeat split; discriminate.
Defined.

(** X8. After a failed [init_display], [terminate_display] gives back
    exactly what that call had created and nothing else: starting from a
    released state, the connection is terminated if it was opened, the
    surface destroyed if it was created, the context destroyed if it was
    created. *)
Theorem terminate_after_failed_init
    (a : android_app) (e : EglEnv) (s : AppState) (f : SurfaceError) :
  handles_all_null s ->
  failing_step e = Some f ->
  calls (terminate_display (state (init_display a e s))) =
    (if display_created f
     then [eglMakeCurrent (r_eglGetDisplay e)
             EGL_NO_SURFACE EGL_NO_SURFACE EGL_NO_CONTEXT]
     else []) ++
    (if context_created f
     then [eglDestroyContext (r_eglGetDisplay e) (r_eglCreateContext e)]
     else []) ++
    (if surface_created f
     then [eglDestroySurface (r_eglGetDisplay e) (r_eglCreateWindowSurface e)]
     else []) ++
    (if display_created f then [eglTerminate (r_eglGetDisplay e)] else []) ++
    [terminated_line].
Proof.
  intros (Hd & Hs & Hc) Hf. revert Hf.
  unfold failing_step, terminate_display.
  init_display_paths e; intros Hf; inversion Hf; subst f; cbn;
    rewrite ?E1, ?E4, ?E5, ?Hs, ?Hc; cbn; rewrite ?E4; reflexivity.
Qed.

Lemma terminate_after_failed_init_witness :
  calls (terminate_display
           (state (init_display app_win env_no_config (initial_state 1)))) =
    [ eglMakeCurrent 11 0 0 0; eglTerminate 11; terminated_line ].
Proof.
  apply (terminate_after_failed_init app_win env_no_config (initial_state 1)
           NoMatchingConfig).
  - repeat split.
  - reflexivity.
Defined.

(** ** [handle_cmd], command by command *)

(** X9. A command [handle_cmd] has no case for is ignored altogether: the
    state is returned unchanged and no call is made, not even a log line. *)
Theorem handle_cmd_ignores_unknown
    (a : android_app) (e : EglEnv) (cmd : Z) (s : AppState) :
  handled_cmd cmd = false ->
  handle_cmd a e cmd s = (tt, s, []).
Proof.
  unfold handled_cmd, handle_cmd. intros H.
  repeat (apply orb_false_iff in H; destruct H as [H ?]).
  repeat match goal with E : (_ =? _) = false |- _ => rewrite E; clear E end.
  reflexivity.
Qed.

Lemma handle_cmd_ignores_unknown_witness :
  handle_cmd app_win env_ok 3 (initial_state 1) = (tt, initial_state 1, []).
Proof.
  apply (handle_cmd_ignores_unknown app_win env_ok 3 (initial_state 1)).
  reflexivity.
Defined.

(** X10. What each command may touch. No command changes the [app]
    pointer. Only the two focus commands change [has_focus]. Only
    [APP_CMD_INIT_WINDOW] changes the width and height (so they keep their
    last values across [APP_CMD_TERM_WINDOW]). Only the two window commands
    change the handles and [initialized]. *)
Theorem handle_cmd_frame (a : android_app) (e : EglEnv) (cmd : Z) (s : AppState) :
  app (state (handle_cmd a e cmd s)) = app s /\
  (cmd <> APP_CMD_GAINED_FOCUS -> cmd <> APP_CMD_LOST_FOCUS ->
   has_focus (state (handle_cmd a e cmd s)) = has_focus s) /\
  (cmd <> APP_CMD_INIT_WINDOW ->
   width (state (handle_cmd a e cmd s)) = width s /\
   height (state (handle_cmd a e cmd s)) = height s) /\
  (cmd <> APP_CMD_INIT_WINDOW -> cmd <> APP_CMD_TERM_WINDOW ->
   display (state (handle_cmd a e cmd s)) = display s /\
   surface (state (handle_cmd a e cmd s)) = surface s /\
   context (state (handle_cmd a e cmd s)) = context s /\
   initialized (state (handle_cmd a e cmd s)) = initialized s).
Proof.
  unfold handle_cmd.
  destruct (Z.eqb_spec cmd APP_CMD_INIT_WINDOW) as [E1|E1].
  { rewrite state_bind.
    destruct (window a =? NULL); cbn [negb].
    - repeat split; intros; try reflexivity; contradiction.
    - rewrite state_bind.
      destruct (init_display_frame a e s) as [Ha Hf].
      split; [exact Ha|]. split; [intros _ _; exact Hf|].
      split; intros; contradiction. }
  destruct (Z.eqb_spec cmd APP_CMD_TERM_WINDOW) as [E2|E2].
  { rewrite state_bind, terminate_display_state.
    repeat split; intros; try reflexivity; contradiction. }
  destruct (Z.eqb_spec cmd APP_CMD_GAINED_FOCUS) as [E3|E3].
  { repeat split; intros; try reflexivity; contradiction. }
  destruct (Z.eqb_spec cmd APP_CMD_LOST_FOCUS) as [E4|E4].
  { rewrite !state_bind, render_frame_state.
    repeat split; intros; try reflexivity; contradiction. }
  destruct (cmd =? APP_CMD_PAUSE); [repeat split; reflexivity|].
  destruct (cmd =? APP_CMD_RESUME); [repeat split; reflexivity|].
  destruct (cmd =? APP_CMD_DESTROY); repeat split; reflexivity.
Qed.

(** [APP_CMD_PAUSE], [APP_CMD_RESUME] and [APP_CMD_DESTROY] only log:
    the state is unchanged and the single call is an info log line. In
    particular the handler releases nothing on [APP_CMD_DESTROY]. *)
Theorem handle_cmd_log_only (a : android_app) (e : EglEnv) (cmd : Z) (s : AppState) :
  cmd = APP_CMD_PAUSE \/ cmd = APP_CMD_RESUME \/ cmd = APP_CMD_DESTROY ->
  state (handle_cmd a e cmd s) = s /\
  List.length (calls (handle_cmd a e cmd s)) = 1%nat /\
  count is_log (calls (handle_cmd a e cmd s)) = 1%nat /\
  count is_teardown (calls (handle_cmd a e cmd s)) = 0%nat.
Proof.
  intros [H|[H|H]]; subst cmd; repeat split; reflexivity.
Qed.

Lemma handle_cmd_log_only_witness :
  state (handle_cmd app_win env_ok APP_CMD_DESTROY
           (mkAppState 1 11 22 33 1920 1200 true true))
  = mkAppState 1 11 22 33 1920 1200 true true.
Proof.
  apply (handle_cmd_log_only app_win env_ok APP_CMD_DESTROY
           (mkAppState 1 11 22 33 1920 1200 true true)).
  right; right; reflexivity.
Defined.

(** [APP_CMD_GAINED_FOCUS] sets [has_focus] and does nothing else: it
    renders no frame, even on an initialized state, unlike
    [APP_CMD_LOST_FOCUS]. *)
Theorem gained_focus_renders_nothing (a : android_app) (e : EglEnv) (s : AppState) :
  state (handle_cmd a e APP_CMD_GAINED_FOCUS s) = set_has_focus true s /\
  count is_draw (calls (handle_cmd a e APP_CMD_GAINED_FOCUS s)) = 0%nat /\
  count is_present (calls (handle_cmd a e APP_CMD_GAINED_FOCUS s)) = 0%nat /\
  poll_mode (poll_timeout (state (handle_cmd a e APP_CMD_GAINED_FOCUS s)))
    = NonBlocking.
Proof. repeat split; reflexivity. Qed.

(** X11. [APP_CMD_LOST_FOCUS] on a state that is not initialized clears
    [has_focus] and renders nothing: the only call is the log line. *)
Theorem lost_focus_without_surface (a : android_app) (e : EglEnv) (s : AppState) :
  initialized s = false ->
  state (handle_cmd a e APP_CMD_LOST_FOCUS s) = set_has_focus false s /\
  calls (handle_cmd a e APP_CMD_LOST_FOCUS s) = [lost_focus_line].
Proof.
  intros Hi.
  unfold handle_cmd, render_frame, state, calls, bind, get, modify, LOGI, call;
    cbn.
  rewrite Hi; cbn. split; reflexivity.
Qed.

Lemma lost_focus_without_surface_witness :
  calls (handle_cmd app0 env_ok APP_CMD_LOST_FOCUS
           (set_has_focus true (initial_state 1))) = [lost_focus_line].
Proof.
  apply (lost_focus_without_surface app0 env_ok
           (set_has_focus true (initial_state 1))).
  reflexivity.
Defined.

(** X12. After [APP_CMD_TERM_WINDOW], from any state, the display is
    released and frames are no longer rendered: [render_frame] makes no
    call, and so does the forced frame of a following
    [APP_CMD_LOST_FOCUS]. *)
Theorem term_window_stops_rendering (a : android_app) (e : EglEnv) (s : AppState) :
  fully_torn_down (state (handle_cmd a e APP_CMD_TERM_WINDOW s)) /\
  calls (render_frame (state (handle_cmd a e APP_CMD_TERM_WINDOW s))) = [] /\
  calls (handle_cmd a e APP_CMD_LOST_FOCUS
           (state (handle_cmd a e APP_CMD_TERM_WINDOW s))) = [lost_focus_line].
Proof.
  assert (Hs : state (handle_cmd a e APP_CMD_TERM_WINDOW s) =
               state (terminate_display s)).
  { unfold handle_cmd; cbn [Z.eqb APP_CMD_TERM_WINDOW APP_CMD_INIT_WINDOW
                              Pos.eqb].
    rewrite state_bind. reflexivity. }
  rewrite Hs, terminate_display_state.
  repeat split; reflexivity.
Qed.

(** ** [handle_input], action by action *)

Lemma land_action_mask (action : Z) :
  Z.land action AMOTION_EVENT_ACTION_MASK = action mod 256.
Proof.
  change AMOTION_EVENT_ACTION_MASK with (Z.ones 8).
  rewrite Z.land_ones by lia. reflexivity.
Qed.

(** The action code [handle_input] switches on lies in 0..255, also for a
    negative [int32_t] action. *)
Lemma masked_action_range (action : Z) :
  0 <= Z.land action AMOTION_EVENT_ACTION_MASK < 256.
Proof. rewrite land_action_mask. apply Z.mod_pos_bound. lia. Qed.

(** X13. [handle_input] looks at the action of a motion event only through
    its low eight bits: the bits above the mask (the pointer index) never
    change what it logs or returns. *)
Theorem handle_input_ignores_high_action_bits
    (event : AInputEvent) (k : Z) (s : AppState) :
  handle_input (with_action (ev_action event + 256 * k) event) s =
  handle_input event s.
Proof.
  unfold handle_input, with_action; cbn [ev_type ev_action ev_x ev_y].
  rewrite !land_action_mask.
  replace ((ev_action event + 256 * k) mod 256) with (ev_action event mod 256).
  - reflexivity.
  - rewrite Z.mul_comm, Z_mod_plus_full. reflexivity.
Qed.

(** The exact log of [handle_input]. *)
Lemma handle_input_log (event : AInputEvent) (s : AppState) :
  calls (handle_input event s) =
    input_reads event ++
    if ev_type event =? AINPUT_EVENT_TYPE_MOTION then
      if Z.land (ev_action event) AMOTION_EVENT_ACTION_MASK
           =? AMOTION_EVENT_ACTION_DOWN
      then [android_log_print ANDROID_LOG_INFO LOG_TAG
              "Touch DOWN at (%.1f, %.1f)"
              [ArgFloat (ev_x event); ArgFloat (ev_y event)]]
      else if Z.land (ev_action event) AMOTION_EVENT_ACTION_MASK
                =? AMOTION_EVENT_ACTION_UP
      then [android_log_print ANDROID_LOG_INFO LOG_TAG
              "Touch UP at (%.1f, %.1f)"
              [ArgFloat (ev_x event); ArgFloat (ev_y event)]]
      else []
    else [].
Proof.
  unfold handle_input, input_reads, calls, bind, LOGI, call, ret; cbn.
  destruct (ev_type event =? AINPUT_EVENT_TYPE_MOTION); [|reflexivity].
  cbn.
  destruct (Z.land (ev_action event) AMOTION_EVENT_ACTION_MASK
              =? AMOTION_EVENT_ACTION_DOWN); [reflexivity|].
  destruct (Z.land (ev_action event) AMOTION_EVENT_ACTION_MASK
              =? AMOTION_EVENT_ACTION_UP); [reflexivity|].
  destruct (Z.land (ev_action event) AMOTION_EVENT_ACTION_MASK
              =? AMOTION_EVENT_ACTION_MOVE); reflexivity.
Qed.

(** A second pointer going down (action 0x0105) is consumed without a log line; a
    first pointer going down with index bits set is logged as a down. *)
Example handle_input_pointer_actions :
  handle_input (mkAInputEvent AINPUT_EVENT_TYPE_MOTION 0x0105 7 9)
               (initial_state 1) =
    (1, initial_state 1,
     [AInputEvent_getType; AMotionEvent_getAction;
      AMotionEvent_getX 0; AMotionEvent_getY 0]) /\
  calls (handle_input (mkAInputEvent AINPUT_EVENT_TYPE_MOTION 0x0100 7 9)
                      (initial_state 1)) =
    [AInputEvent_getType; AMotionEvent_getAction;
     AMotionEvent_getX 0; AMotionEvent_getY 0;
     android_log_print ANDROID_LOG_INFO LOG_TAG "Touch DOWN at (%.1f, %.1f)"
       [ArgFloat 7; ArgFloat 9]].
Proof. split; reflexivity. Qed.


(** ** The main loop, body by body *)

Lemma config_eta (c : Config) : mkConfig (c_app c) (c_state c) = c.
Proof. destruct c; reflexivity. Qed.

Lemma render_frame_calls (s : AppState) :
  calls (render_frame s) = if initialized s then frame_calls s else [].
Proof.
  unfold render_frame, calls, bind, get, call, ret; cbn.
  destruct (initialized s); reflexivity.
Qed.

(** X15. A poll that returns a negative value (timeout, wake-up, error)
    ends the inner loop: nothing is dispatched, even if a source was
    stored, [android_main] does not return, the configuration is unchanged,
    and after the poll exactly one frame is rendered if [has_focus] and
    [initialized] are both set, none otherwise. *)
Theorem loop_body_idle (p : PollAnswer) (c : Config) :
  poll_ret p < 0 ->
  loop_body p c =
    (inr c,
     ALooper_pollAll (poll_timeout (c_state c)) ::
     (if has_focus (c_state c) && initialized (c_state c)
      then frame_calls (c_state c) else [])).
Proof.
  intros Hret. unfold loop_body.
  assert (Hge : (poll_ret p >=? 0) = false)
    by (rewrite Z.geb_leb; apply Z.leb_gt; exact Hret).
  rewrite Hge.
  destruct (has_focus (c_state c)); cbn [andb].
  - rewrite render_frame_state, render_frame_calls, config_eta. reflexivity.
  - cbn. rewrite config_eta. reflexivity.
Qed.

Lemma loop_body_idle_witness :
  loop_body (mkPollAnswer ALOOPER_POLL_TIMEOUT
               (Some (SrcCmd APP_CMD_DESTROY 0 env_ok)))
            (mkConfig app_win (mkAppState 1 11 22 33 1920 1200 true true)) =
    (inr (mkConfig app_win (mkAppState 1 11 22 33 1920 1200 true true)),
     ALooper_pollAll 0 :: frame_calls (mkAppState 1 11 22 33 1920 1200 true true)).
Proof.
  apply (loop_body_idle
           (mkPollAnswer ALOOPER_POLL_TIMEOUT
              (Some (SrcCmd APP_CMD_DESTROY 0 env_ok)))
           (mkConfig app_win (mkAppState 1 11 22 33 1920 1200 true true))).
  reflexivity.
Defined.

Lemma loop_body_returned (p : PollAnswer) (c c' : Config) (l : list Call) :
  loop_body p c = (inl c', l) ->
  fully_torn_down (c_state c') /\
  destroyRequested (c_app c') <> 0 /\
  exists before, l = before ++ [terminated_line].
Proof.
  unfold loop_body.
  destruct (poll_ret p >=? 0); [|discriminate].
  set (pr := match poll_source p with
             | Some src => process src c
             | None => (c, [])
             end).
  destruct (Z.eqb_spec (destroyRequested (c_app (fst pr))) 0) as [E|E];
    cbn [negb]; [discriminate|].
  intros H. inversion H; subst c' l; clear H. cbn [c_state c_app].
  rewrite state_bind, calls_bind.
  split; [|split; [exact E|]].
  - change (state (LOGI "Destroy requested, exiting..." [] (c_state (fst pr))))
      with (c_state (fst pr)).
    rewrite terminate_display_state. repeat split.
  - change (state (LOGI "Destroy requested, exiting..." [] (c_state (fst pr))))
      with (c_state (fst pr)).
    destruct (terminate_display_log_last (c_state (fst pr))) as [b Hb].
    rewrite Hb.
    exists ((ALooper_pollAll (poll_timeout (c_state c)) :: snd pr) ++
            calls (LOGI "Destroy requested, exiting..." [] (c_state (fst pr)))
            ++ b).
    rewrite <- !app_assoc. reflexivity.
Qed.

(** X16. Whenever [android_main] returns, it has just released the display:
    in the final state [initialized] is false and the three handles are
    null, the last call of the run is the log line of [terminate_display],
    and [app->destroyRequested] is set. *)
Theorem android_main_returns_released
    (app_ptr : Z) (a : android_app) (script : list PollAnswer) :
  run_status (android_main app_ptr a script) = Returned ->
  fully_torn_down (c_state (run_config (android_main app_ptr a script))) /\
  destroyRequested (c_app (run_config (android_main app_ptr a script))) <> 0 /\
  exists before,
    run_calls (android_main app_ptr a script) = before ++ [terminated_line].
Proof.
  unfold android_main. cbn [prepend run_status run_config run_calls].
  generalize (mkConfig a (initial_state app_ptr)) as c.
  generalize [android_log_print ANDROID_LOG_INFO LOG_TAG "NDKarte starting..." []]
    as l0.
  induction script as [|p rest IH]; intros l0 c Hst; cbn in Hst.
  - discriminate Hst.
  - cbn [main_loop] in *.
    destruct (loop_body p c) as [[c'|c'] l] eqn:Hb;
      cbn [prepend run_status run_config run_calls] in *.
    + destruct (loop_body_returned p c c' l Hb) as (Ht & Hd & b & Hl).
      split; [exact Ht|]. split; [exact Hd|].
      exists (l0 ++ b). rewrite Hl, app_assoc. reflexivity.
    + destruct (IH (l0 ++ l) c' Hst) as (Ht & Hd & b & Hl).
      split; [exact Ht|]. split; [exact Hd|].
      exists b. rewrite app_assoc. exact Hl.
Qed.

Lemma android_main_returns_released_witness :
  fully_torn_down (c_state (run_config (android_main 1 app0
     [ cmd_answer APP_CMD_INIT_WINDOW 77 env_ok;
       cmd_answer APP_CMD_DESTROY 0 env_ok ]))).
Proof.
  apply (android_main_returns_released 1 app0
     [ cmd_answer APP_CMD_INIT_WINDOW 77 env_ok;
       cmd_answer APP_CMD_DESTROY 0 env_ok ]).
  reflexivity.
Defined.

(** ** Polls along a run *)

Lemma render_frame_no_poll (s : AppState) :
  count is_poll (calls (render_frame s)) = 0%nat.
Proof. rewrite render_frame_calls. destruct (initialized s); reflexivity. Qed.

Lemma handle_cmd_no_poll (a : android_app) (e : EglEnv) (cmd : Z) (s : AppState) :
  count is_poll (calls (handle_cmd a e cmd s)) = 0%nat.
Proof.
  unfold handle_cmd.
  destruct (cmd =? APP_CMD_INIT_WINDOW).
  { rewrite calls_bind, count_app.
    destruct (window a =? NULL); cbn [negb]; [reflexivity|].
    rewrite calls_bind, count_app, init_display_no_poll. reflexivity. }
  destruct (cmd =? APP_CMD_TERM_WINDOW).
  { rewrite calls_bind, count_app.
    destruct (terminate_display_counts (state (LOGI "APP_CMD_TERM_WINDOW" [] s)))
      as (_ & H & _).
    rewrite H. reflexivity. }
  destruct (cmd =? APP_CMD_GAINED_FOCUS); [reflexivity|].
  destruct (cmd =? APP_CMD_LOST_FOCUS).
  { rewrite !calls_bind, !count_app, render_frame_no_poll. reflexivity. }
  destruct (cmd =? APP_CMD_PAUSE); [reflexivity|].
  destruct (cmd =? APP_CMD_RESUME); [reflexivity|].
  destruct (cmd =? APP_CMD_DESTROY); reflexivity.
Qed.

Lemma handle_input_no_poll (event : AInputEvent) (s : AppState) :
  count is_poll (calls (handle_input event s)) = 0%nat.
Proof.
  rewrite handle_input_log. unfold input_reads.
  destruct (ev_type event =? AINPUT_EVENT_TYPE_MOTION); [|reflexivity].
  destruct (Z.land (ev_action event) AMOTION_EVENT_ACTION_MASK
              =? AMOTION_EVENT_ACTION_DOWN); [reflexivity|].
  destruct (Z.land (ev_action event) AMOTION_EVENT_ACTION_MASK
              =? AMOTION_EVENT_ACTION_UP); reflexivity.
Qed.

Lemma dispatch_inputs_no_poll (events : list AInputEvent) (s : AppState) :
  count is_poll (snd (dispatch_inputs events s)) = 0%nat.
Proof.
  revert s. induction events as [|ev rest IH]; intros s; cbn [dispatch_inputs snd].
  - reflexivity.
  - rewrite count_app, handle_input_no_poll, IH. reflexivity.
Qed.

Lemma process_no_poll (src : Source) (c : Config) :
  count is_poll (snd (process src c)) = 0%nat.
Proof.
  destruct src as [cmd w e|events]; cbn [process snd].
  - apply handle_cmd_no_poll.
  - apply dispatch_inputs_no_poll.
Qed.

Lemma loop_body_one_poll (p : PollAnswer) (c : Config) :
  count is_poll (snd (loop_body p c)) = 1%nat.
Proof.
  unfold loop_body.
  assert (Hpr : count is_poll (snd match poll_source p with
                                   | Some src => process src c
                                   | None => (c, [])
                                   end) = 0%nat).
  { destruct (poll_source p); [apply process_no_poll | reflexivity]. }
  destruct (poll_ret p >=? 0).
  - destruct (negb _); cbn [snd].
    + change (?x :: ?l ++ ?m) with ([x] ++ l ++ m).
      rewrite !count_app, Hpr, calls_bind, count_app.
      destruct (terminate_display_counts
                  (state (LOGI "Destroy requested, exiting..." []
                            (c_state (fst match poll_source p with
                                          | Some src => process src c
                                          | None => (c, [])
                                          end))))) as (_ & H & _).
      rewrite H. reflexivity.
    + change (?x :: ?l) with ([x] ++ l).
      rewrite count_app, Hpr. reflexivity.
  - cbn [snd]. change (?x :: ?l) with ([x] ++ l). rewrite count_app.
    destruct (has_focus (c_state c)).
    + rewrite render_frame_no_poll. reflexivity.
    + reflexivity.
Qed.

(** X17. The program polls once per answer it consumes and nowhere else:
    no handler and no display routine ever calls [ALooper_pollAll]. So a
    run makes at most as many polls as the script has answers, and exactly
    as many if [android_main] has not returned. *)
Theorem one_poll_per_answer (script : list PollAnswer) (c : Config) :
  (count is_poll (run_calls (main_loop script c)) <= List.length script)%nat /\
  (run_status (main_loop script c) = AtPoll ->
   count is_poll (run_calls (main_loop script c)) = List.length script).
Proof.
  revert c. induction script as [|p rest IH]; intros c; cbn [main_loop].
  - split; [apply le_n | reflexivity].
  - pose proof (loop_body_one_poll p c) as H1.
    destruct (loop_body p c) as [[c'|c'] l];
      cbn [snd prepend run_status run_calls List.length] in *.
    + split; [lia | discriminate].
    + rewrite count_app, H1. destruct (IH c') as [Hle Heq].
      split; [lia | intros Hst; rewrite (Heq Hst); reflexivity].
Qed.

(** ** No null handle reaches EGL while acquisitions succeed *)

Lemma terminate_display_calls_live (s : AppState) :
  forallb live_args (calls (terminate_display s)) = true.
Proof.
  unfold terminate_display, calls, bind, get, modify, call, LOGI, ret; cbn.
  destruct (display s =? EGL_NO_DISPLAY) eqn:Ed; cbn; [reflexivity|].
  destruct (context s =? EGL_NO_CONTEXT) eqn:Ec,
           (surface s =? EGL_NO_SURFACE) eqn:Es; cbn;
    rewrite ?Ed, ?Ec, ?Es; reflexivity.
Qed.

Lemma render_frame_calls_live (s : AppState) :
  surface_invariant s ->
  forallb live_args (calls (render_frame s)) = true.
Proof.
  intros [Hset _]. rewrite render_frame_calls.
  destruct (initialized s); [|reflexivity].
  destruct (Hset eq_refl) as (Hd & Hs & _).
  apply Z.eqb_neq in Hd, Hs. cbn. rewrite Hd, Hs. reflexivity.
Qed.

Lemma handle_cmd_calls_live (a : android_app) (e : EglEnv) (cmd : Z) (s : AppState) :
  surface_invariant s ->
  forallb live_args (calls (handle_cmd a e cmd s)) = true.
Proof.
  intros Hinv. unfold handle_cmd.
  destruct (cmd =? APP_CMD_INIT_WINDOW).
  { rewrite calls_bind, forallb_app.
    destruct (window a =? NULL); cbn [negb]; [reflexivity|].
    rewrite calls_bind, forallb_app, init_display_no_present. reflexivity. }
  destruct (cmd =? APP_CMD_TERM_WINDOW).
  { rewrite calls_bind, forallb_app, terminate_display_calls_live. reflexivity. }
  destruct (cmd =? APP_CMD_GAINED_FOCUS); [reflexivity|].
  destruct (cmd =? APP_CMD_LOST_FOCUS).
  { rewrite !calls_bind, !forallb_app.
    apply andb_true_intro; split; [reflexivity|].
    apply andb_true_intro; split; [reflexivity|].
    exact (render_frame_calls_live (set_has_focus false s)
             (surface_invariant_has_focus false s Hinv)). }
  destruct (cmd =? APP_CMD_PAUSE); [reflexivity|].
  destruct (cmd =? APP_CMD_RESUME); [reflexivity|].
  destruct (cmd =? APP_CMD_DESTROY); reflexivity.
Qed.

Lemma handle_input_calls_live (event : AInputEvent) (s : AppState) :
  forallb live_args (calls (handle_input event s)) = true.
Proof.
  rewrite handle_input_log. unfold input_reads.
  destruct (ev_type event =? AINPUT_EVENT_TYPE_MOTION); [|reflexivity].
  destruct (Z.land (ev_action event) AMOTION_EVENT_ACTION_MASK
              =? AMOTION_EVENT_ACTION_DOWN); [reflexivity|].
  destruct (Z.land (ev_action event) AMOTION_EVENT_ACTION_MASK
              =? AMOTION_EVENT_ACTION_UP); reflexivity.
Qed.

Lemma dispatch_inputs_calls_live (events : list AInputEvent) (s : AppState) :
  forallb live_args (snd (dispatch_inputs events s)) = true.
Proof.
  revert s. induction events as [|ev rest IH]; intros s; cbn [dispatch_inputs snd].
  - reflexivity.
  - rewrite forallb_app, handle_input_calls_live, IH. reflexivity.
Qed.

Lemma loop_body_calls_live (p : PollAnswer) (c : Config) :
  surface_invariant (c_state c) ->
  forallb live_args (snd (loop_body p c)) = true.
Proof.
  intros Hinv. unfold loop_body.
  assert (Hpr : forallb live_args (snd match poll_source p with
                                       | Some src => process src c
                                       | None => (c, [])
                                       end) = true).
  { destruct (poll_source p) as [[cmd w e|events]|]; cbn [process snd].
    - apply handle_cmd_calls_live; exact Hinv.
    - apply dispatch_inputs_calls_live.
    - reflexivity. }
  destruct (poll_ret p >=? 0).
  - destruct (negb _); cbn [snd].
    + change (?x :: ?l ++ ?m) with ([x] ++ l ++ m).
      rewrite !forallb_app, Hpr, calls_bind, forallb_app,
        terminate_display_calls_live.
      reflexivity.
    + change (?x :: ?l) with ([x] ++ l).
      rewrite forallb_app, Hpr. reflexivity.
  - cbn [snd]. change (?x :: ?l) with ([x] ++ l). rewrite forallb_app.
    destruct (has_focus (c_state c)).
    + rewrite (render_frame_calls_live _ Hinv). reflexivity.
    + reflexivity.
Qed.

Lemma main_loop_calls_live (script : list PollAnswer) (c : Config) :
  surface_invariant (c_state c) ->
  forallb acquire_succeeds script = true ->
  forallb live_args (run_calls (main_loop script c)) = true.
Proof.
  revert c. induction script as [|p rest IH]; intros c Hinv Hok; cbn [main_loop].
  - reflexivity.
  - cbn in Hok. apply andb_prop in Hok. destruct Hok as [Hp Hrest].
    pose proof (loop_body_invariant p c Hinv Hp) as Hi.
    pose proof (loop_body_calls_live p c Hinv) as Hl.
    destruct (loop_body p c) as [[c'|c'] l];
      cbn [fst snd prepend run_calls] in *.
    + exact Hl.
    + rewrite forallb_app, Hl, (IH c' Hi Hrest). reflexivity.
Qed.

(** X18. As long as no [init_display] fails, the program never hands a null
    handle to EGL: in every run of [android_main], each buffer swap names a
    non-null display and surface, and each unbind, destroy and terminate
    call names a non-null display and a non-null object to destroy. *)
Theorem no_null_handle_reaches_egl
    (app_ptr : Z) (a : android_app) (script : list PollAnswer) :
  forallb acquire_succeeds script = true ->
  forallb live_args (run_calls (android_main app_ptr a script)) = true.
Proof.
  intros Hok. unfold android_main. cbn [prepend run_calls].
  rewrite forallb_app.
  rewrite (main_loop_calls_live script (mkConfig a (initial_state app_ptr))
             (surface_invariant_initial app_ptr) Hok).
  reflexivity.
Qed.

Lemma no_null_handle_reaches_egl_witness :
  forallb live_args (run_calls (android_main 1 app0
     [ cmd_answer APP_CMD_INIT_WINDOW 77 env_ok;
       cmd_answer APP_CMD_GAINED_FOCUS 0 env_ok;
       timeout_answer;
       cmd_answer APP_CMD_DESTROY 0 env_ok ])) = true.
Proof.
  apply (no_null_handle_reaches_egl 1 app0
     [ cmd_answer APP_CMD_INIT_WINDOW 77 env_ok;
       cmd_answer APP_CMD_GAINED_FOCUS 0 env_ok;
       timeout_answer;
       cmd_answer APP_CMD_DESTROY 0 env_ok ]).
  reflexivity.
Defined.

(** Without that hypothesis it can: after a successful [init_display], one
    that cannot open the display leaves [initialized] set over a null
    display, and the next frame swaps buffers on it. *)
Example swap_on_null_display :
  In (eglSwapBuffers EGL_NO_DISPLAY 22)
     (run_calls (android_main 1 app0
        [ cmd_answer APP_CMD_INIT_WINDOW 77 env_ok;
          cmd_answer APP_CMD_GAINED_FOCUS 0 env_ok;
          cmd_answer APP_CMD_INIT_WINDOW 77 env_no_display;
          timeout_answer ])).
Proof. cbn. tauto. Qed.

(** ** Before the first focus gain *)

Lemma no_poll_blocking (l : list Call) :
  count is_poll l = 0%nat -> forallb blocking_poll l = true.
Proof.
  induction l as [|c l IH]; intros H; [reflexivity|].
  destruct c; cbn in H |- *; try (apply IH; exact H); discriminate H.
Qed.

Lemma handle_cmd_stays_unfocused
    (a : android_app) (e : EglEnv) (cmd : Z) (s : AppState) :
  (cmd =? APP_CMD_GAINED_FOCUS) = false ->
  has_focus s = false ->
  has_focus (state (handle_cmd a e cmd s)) = false.
Proof.
  intros Hc Hf. unfold handle_cmd.
  destruct (cmd =? APP_CMD_INIT_WINDOW).
  { rewrite state_bind.
    destruct (window a =? NULL); cbn [negb]; [exact Hf|].
    rewrite state_bind.
    destruct (init_display_frame a e s) as [_ H].
    etransitivity; [exact H | exact Hf]. }
  destruct (cmd =? APP_CMD_TERM_WINDOW).
  { rewrite state_bind, terminate_display_state. exact Hf. }
  rewrite Hc.
  destruct (cmd =? APP_CMD_LOST_FOCUS).
  { rewrite !state_bind, render_frame_state. reflexivity. }
  destruct (cmd =? APP_CMD_PAUSE); [exact Hf|].
  destruct (cmd =? APP_CMD_RESUME); [exact Hf|].
  destruct (cmd =? APP_CMD_DESTROY); exact Hf.
Qed.

Lemma process_stays_unfocused (src : Source) (c : Config) :
  no_focus_gain (mkPollAnswer 0 (Some src)) = true ->
  has_focus (c_state c) = false ->
  has_focus (c_state (fst (process src c))) = false.
Proof.
  intros Hn Hf. destruct src as [cmd w e|events]; cbn [process fst c_state].
  - apply handle_cmd_stays_unfocused; [|exact Hf].
    unfold no_focus_gain in Hn; cbn in Hn.
    apply negb_true_iff in Hn. exact Hn.
  - rewrite dispatch_inputs_state. exact Hf.
Qed.

Lemma loop_body_stays_unfocused (p : PollAnswer) (c : Config) :
  no_focus_gain p = true ->
  has_focus (c_state c) = false ->
  forallb blocking_poll (snd (loop_body p c)) = true /\
  match fst (loop_body p c) with
  | inl c' | inr c' => has_focus (c_state c') = false
  end.
Proof.
  intros Hn Hf.
  assert (Hpoll : count is_poll (snd (loop_body p c)) = 1%nat)
    by apply loop_body_one_poll.
  destruct (loop_body_polls_first p c) as [tail Ht].
  split.
  - rewrite Ht in Hpoll |- *. unfold poll_timeout. rewrite Hf.
    cbn [forallb blocking_poll Z.ltb Z.compare andb].
    apply no_poll_blocking.
    unfold count in Hpoll |- *. cbn in Hpoll. injection Hpoll as Hpoll.
    exact Hpoll.
  - unfold loop_body.
    assert (Hpr : has_focus (c_state (fst match poll_source p with
                                          | Some src => process src c
                                          | None => (c, [])
                                          end)) = false).
    { destruct p as [r [src|]]; cbn [poll_source fst].
      - apply process_stays_unfocused; assumption.
      - exact Hf. }
    destruct (poll_ret p >=? 0).
    + destruct (negb _); cbn [fst c_state].
      * rewrite state_bind, terminate_display_state. exact Hpr.
      * exact Hpr.
    + cbn [fst c_state]. rewrite Hf. exact Hf.
Qed.

Lemma main_loop_stays_unfocused (script : list PollAnswer) (c : Config) :
  forallb no_focus_gain script = true ->
  has_focus (c_state c) = false ->
  forallb blocking_poll (run_calls (main_loop script c)) = true /\
  has_focus (c_state (run_config (main_loop script c))) = false.
Proof.
  revert c. induction script as [|p rest IH]; intros c Hn Hf; cbn [main_loop].
  - split; [reflexivity | exact Hf].
  - cbn in Hn. apply andb_prop in Hn. destruct Hn as [Hp Hrest].
    destruct (loop_body_stays_unfocused p c Hp Hf) as [Hb Hc].
    destruct (loop_body p c) as [[c'|c'] l];
      cbn [fst snd prepend run_calls run_config] in *.
    + split; assumption.
    + destruct (IH c' Hrest Hc) as [Hb' Hf'].
      split; [|exact Hf'].
      rewrite forallb_app, Hb, Hb'. reflexivity.
Qed.

(** X19. [android_main] starts unfocused and stays so until
    [APP_CMD_GAINED_FOCUS] is delivered: in a run whose answers deliver no
    such command, [has_focus] is false at the end and every
    [ALooper_pollAll] was called with a negative timeout, that is, the
    program never polls without blocking before it has gained focus. *)
Theorem blocks_until_focus_gained
    (app_ptr : Z) (a : android_app) (script : list PollAnswer) :
  forallb no_focus_gain script = true ->
  forallb blocking_poll (run_calls (android_main app_ptr a script)) = true /\
  has_focus (c_state (run_config (android_main app_ptr a script))) = false.
Proof.
  intros Hn. unfold android_main. cbn [prepend run_calls run_config].
  destruct (main_loop_stays_unfocused script
              (mkConfig a (initial_state app_ptr)) Hn eq_refl) as [Hb Hf].
  split; [|exact Hf].
  rewrite forallb_app, Hb. reflexivity.
Qed.

Lemma blocks_until_focus_gained_witness :
  forallb blocking_poll (run_calls (android_main 1 app0
     [ cmd_answer APP_CMD_INIT_WINDOW 77 env_ok;
       cmd_answer APP_CMD_LOST_FOCUS 0 env_ok;
       timeout_answer ])) = true.
Proof.
  apply (blocks_until_focus_gained 1 app0
     [ cmd_answer APP_CMD_INIT_WINDOW 77 env_ok;
       cmd_answer APP_CMD_LOST_FOCUS 0 env_ok;
       timeout_answer ]).
  reflexivity.
Defined.

(** ** Without a surface nothing is drawn *)

Lemma init_display_initialized (a : android_app) (e : EglEnv) (s : AppState) :
  initialized (state (init_display a e s)) =
    initialized s || value (init_display a e s).
Proof.
  init_display_paths e; destruct (initialized s); reflexivity.
Qed.

Lemma init_display_no_frame (a : android_app) (e : EglEnv) (s : AppState) :
  count is_frame_call (calls (init_display a e s)) = 0%nat.
Proof. init_display_paths e; reflexivity. Qed.

Lemma terminate_display_no_frame (s : AppState) :
  count is_frame_call (calls (terminate_display s)) = 0%nat.
Proof.
  unfold terminate_display, calls, bind, get, modify, call, LOGI, ret; cbn.
  destruct (display s =? EGL_NO_DISPLAY); cbn; [reflexivity|].
  destruct (context s =? EGL_NO_CONTEXT), (surface s =? EGL_NO_SURFACE);
    reflexivity.
Qed.

Lemma handle_cmd_without_surface
    (a : android_app) (e : EglEnv) (cmd : Z) (s : AppState) :
  initialized s = false ->
  (cmd = APP_CMD_INIT_WINDOW -> window a <> NULL -> failing_step e <> None) ->
  initialized (state (handle_cmd a e cmd s)) = false /\
  count is_frame_call (calls (handle_cmd a e cmd s)) = 0%nat.
Proof.
  intros Hi Hfail. unfold handle_cmd.
  destruct (Z.eqb_spec cmd APP_CMD_INIT_WINDOW) as [E1|E1].
  { rewrite state_bind, calls_bind, count_app.
    destruct (Z.eqb_spec (window a) NULL) as [Ew|Ew]; cbn [negb].
    - split; [exact Hi | reflexivity].
    - rewrite state_bind, calls_bind, count_app, init_display_no_frame.
      split; [|reflexivity].
      change (initialized (state (init_display a e s)) = false).
      rewrite init_display_initialized, Hi. cbn [orb].
      destruct (value (init_display a e s)) eqn:Ev; [|reflexivity].
      apply init_display_success_iff in Ev. destruct (Hfail E1 Ew Ev). }
  destruct (cmd =? APP_CMD_TERM_WINDOW).
  { rewrite state_bind, calls_bind, count_app, terminate_display_state,
      terminate_display_no_frame.
    split; reflexivity. }
  destruct (cmd =? APP_CMD_GAINED_FOCUS); [split; [exact Hi | reflexivity]|].
  destruct (cmd =? APP_CMD_LOST_FOCUS).
  { rewrite !state_bind, !calls_bind, !count_app, render_frame_state,
      render_frame_calls.
    change (initialized (state (modify (set_has_focus false)
                          (state (LOGI "APP_CMD_LOST_FOCUS" [] s)))))
      with (initialized s).
    rewrite Hi. split; reflexivity. }
  destruct (cmd =? APP_CMD_PAUSE); [split; [exact Hi | reflexivity]|].
  destruct (cmd =? APP_CMD_RESUME); [split; [exact Hi | reflexivity]|].
  destruct (cmd =? APP_CMD_DESTROY); split; first [exact Hi | reflexivity].
Qed.

Lemma handle_input_no_frame (event : AInputEvent) (s : AppState) :
  count is_frame_call (calls (handle_input event s)) = 0%nat.
Proof.
  rewrite handle_input_log. unfold input_reads.
  destruct (ev_type event =? AINPUT_EVENT_TYPE_MOTION); [|reflexivity].
  destruct (Z.land (ev_action event) AMOTION_EVENT_ACTION_MASK
              =? AMOTION_EVENT_ACTION_DOWN); [reflexivity|].
  destruct (Z.land (ev_action event) AMOTION_EVENT_ACTION_MASK
              =? AMOTION_EVENT_ACTION_UP); reflexivity.
Qed.

Lemma dispatch_inputs_no_frame (events : list AInputEvent) (s : AppState) :
  count is_frame_call (snd (dispatch_inputs events s)) = 0%nat.
Proof.
  revert s. induction events as [|ev rest IH]; intros s; cbn [dispatch_inputs snd].
  - reflexivity.
  - rewrite count_app, handle_input_no_frame, IH. reflexivity.
Qed.

Lemma process_without_surface (src : Source) (c : Config) :
  initialized (c_state c) = false ->
  no_acquire_success (mkPollAnswer 0 (Some src)) = true ->
  initialized (c_state (fst (process src c))) = false /\
  count is_frame_call (snd (process src c)) = 0%nat.
Proof.
  intros Hi Hn. destruct src as [cmd w e|events]; cbn [process fst snd c_state].
  - apply handle_cmd_without_surface; [exact Hi|].
    intros Ec Hw Hnone. subst cmd. cbn in Hw.
    unfold no_acquire_success in Hn; cbn in Hn.
    destruct (Z.eqb_spec w NULL) as [E|E]; [contradiction|].
    rewrite Hnone in Hn. discriminate Hn.
  - rewrite dispatch_inputs_state. split; [exact Hi|].
    apply dispatch_inputs_no_frame.
Qed.

Lemma loop_body_without_surface (p : PollAnswer) (c : Config) :
  initialized (c_state c) = false ->
  no_acquire_success p = true ->
  count is_frame_call (snd (loop_body p c)) = 0%nat /\
  match fst (loop_body p c) with
  | inl c' | inr c' => initialized (c_state c') = false
  end.
Proof.
  intros Hi Hn. unfold loop_body.
  assert (Hpr : initialized (c_state (fst match poll_source p with
                                          | Some src => process src c
                                          | None => (c, [])
                                          end)) = false /\
                count is_frame_call (snd match poll_source p with
                                         | Some src => process src c
                                         | None => (c, [])
                                         end) = 0%nat).
  { destruct p as [r [src|]]; cbn [poll_source fst snd].
    - apply process_without_surface; assumption.
    - split; [exact Hi | reflexivity]. }
  destruct Hpr as [Hpi Hpc].
  destruct (poll_ret p >=? 0).
  - destruct (negb _); cbn [fst snd c_state].
    + change (?x :: ?l ++ ?m) with ([x] ++ l ++ m).
      rewrite !count_app, Hpc, calls_bind, count_app, state_bind,
        terminate_display_no_frame, terminate_display_state.
      split; reflexivity.
    + change (?x :: ?l) with ([x] ++ l). rewrite count_app, Hpc.
      split; [reflexivity | exact Hpi].
  - cbn [fst snd c_state]. change (?x :: ?l) with ([x] ++ l).
    rewrite count_app.
    destruct (has_focus (c_state c)).
    + rewrite render_frame_state, render_frame_calls, Hi.
      split; reflexivity.
    + split; [reflexivity | exact Hi].
Qed.

Lemma main_loop_without_surface (script : list PollAnswer) (c : Config) :
  initialized (c_state c) = false ->
  forallb no_acquire_success script = true ->
  count is_frame_call (run_calls (main_loop script c)) = 0%nat /\
  initialized (c_state (run_config (main_loop script c))) = false.
Proof.
  revert c. induction script as [|p rest IH]; intros c Hi Hn; cbn [main_loop].
  - split; [reflexivity | exact Hi].
  - cbn in Hn. apply andb_prop in Hn. destruct Hn as [Hp Hrest].
    destruct (loop_body_without_surface p c Hi Hp) as [Hc Hi'].
    destruct (loop_body p c) as [[c'|c'] l];
      cbn [fst snd prepend run_calls run_config] in *.
    + split; assumption.
    + destruct (IH c' Hi' Hrest) as [Hc' Hi''].
      split; [|exact Hi''].
      rewrite count_app, Hc, Hc'. reflexivity.
Qed.

(** X20. Nothing is drawn before a display has been set up: in a run of
    [android_main] in which no [init_display] succeeds (no window command,
    a null window, or a failing step every time), [initialized] stays
    false and the program makes no clear and no buffer swap, whatever the
    focus commands and idle polls. *)
Theorem nothing_drawn_without_surface
    (app_ptr : Z) (a : android_app) (script : list PollAnswer) :
  forallb no_acquire_success script = true ->
  count is_frame_call (run_calls (android_main app_ptr a script)) = 0%nat /\
  initialized (c_state (run_config (android_main app_ptr a script))) = false.
Proof.
  intros Hn. unfold android_main. cbn [prepend run_calls run_config].
  destruct (main_loop_without_surface script
              (mkConfig a (initial_state app_ptr)) eq_refl Hn) as [Hc Hi].
  split; [|exact Hi].
  rewrite count_app, Hc. reflexivity.
Qed.

Lemma nothing_drawn_without_surface_witness :
  count is_frame_call (run_calls (android_main 1 app0
     [ cmd_answer APP_CMD_INIT_WINDOW 77 env_no_config;
       cmd_answer APP_CMD_GAINED_FOCUS 0 env_ok;
       timeout_answer;
       cmd_answer APP_CMD_LOST_FOCUS 0 env_ok ])) = 0%nat.
Proof.
  apply (nothing_drawn_without_surface 1 app0
     [ cmd_answer APP_CMD_INIT_WINDOW 77 env_no_config;
       cmd_answer APP_CMD_GAINED_FOCUS 0 env_ok;
       timeout_answer;
       cmd_answer APP_CMD_LOST_FOCUS 0 env_ok ]).
  reflexivity.
Defined.

(** ** The surface invariant across failed acquisitions *)

Lemma surface_invariant_torn_down (s : AppState) :
  fully_torn_down s -> surface_invariant s.
Proof.
  intros [Hi Hn]. split; intros H; [congruence | exact Hn].
Qed.

(** [terminate_display] and a successful [init_display] establish the
    invariant from any state. *)
Lemma handle_cmd_restores_invariant
    (a : android_app) (e : EglEnv) (cmd : Z) (s : AppState) :
  cmd = APP_CMD_TERM_WINDOW \/
  (cmd = APP_CMD_INIT_WINDOW /\ window a <> NULL /\ failing_step e = None) ->
  surface_invariant (state (handle_cmd a e cmd s)).
Proof.
  intros [Ht | (Hc & Hw & Hf)]; subst cmd; unfold handle_cmd.
  - cbn [Z.eqb APP_CMD_TERM_WINDOW APP_CMD_INIT_WINDOW Pos.eqb].
    rewrite state_bind. apply surface_invariant_terminate.
  - rewrite Z.eqb_refl, state_bind.
    destruct (Z.eqb_spec (window a) NULL) as [E|E]; [contradiction|].
    cbn [negb]. rewrite state_bind.
    apply surface_invariant_init_success; exact Hf.
Qed.

Lemma process_settles (src : Source) (c : Config) (r : Z) (b : bool) :
  0 <= r ->
  (b = true -> surface_invariant (c_state c)) ->
  settles (mkPollAnswer r (Some src)) b = true ->
  surface_invariant (c_state (fst (process src c))).
Proof.
  intros Hr Hinv Hs. unfold settles in Hs; cbn [poll_ret poll_source] in Hs.
  assert (Hge : (r >=? 0) = true) by (apply Z.geb_le; exact Hr).
  rewrite Hge in Hs.
  destruct src as [cmd w e|events]; cbn [process fst c_state].
  - destruct (Z.eqb_spec cmd APP_CMD_INIT_WINDOW) as [E1|E1].
    + subst cmd. destruct (Z.eqb_spec w NULL) as [Ew|Ew].
      * apply handle_cmd_invariant; [exact (Hinv Hs)|].
        intros _ Hw. cbn in Hw. contradiction.
      * apply handle_cmd_restores_invariant. right.
        split; [reflexivity|]. split; [exact Ew|].
        destruct (failing_step e); [discriminate Hs | reflexivity].
    + destruct (Z.eqb_spec cmd APP_CMD_TERM_WINDOW) as [E2|E2].
      * apply handle_cmd_restores_invariant. left; exact E2.
      * apply handle_cmd_invariant; [exact (Hinv Hs)|].
        intros Hc. contradiction.
  - rewrite dispatch_inputs_state. exact (Hinv Hs).
Qed.

Lemma loop_body_settles (p : PollAnswer) (c c' : Config) (l : list Call) (b : bool) :
  (b = true -> surface_invariant (c_state c)) ->
  loop_body p c = (inr c', l) ->
  settles p b = true ->
  surface_invariant (c_state c').
Proof.
  intros Hinv Hb Hs. unfold loop_body in Hb.
  destruct (Z.geb_spec (poll_ret p) 0) as [Hge|Hlt].
  - destruct (negb _) in Hb; [discriminate Hb|].
    inversion Hb; subst c' l; clear Hb.
    destruct p as [r [src|]]; cbn [poll_ret poll_source fst] in *.
    + apply (process_settles src c r b); [lia | exact Hinv | exact Hs].
    + unfold settles in Hs; cbn [poll_ret poll_source] in Hs.
      destruct (r >=? 0); exact (Hinv Hs).
  - inversion Hb; subst c' l; clear Hb. cbn [c_state].
    unfold settles in Hs.
    assert (Hf : (poll_ret p >=? 0) = false)
      by (rewrite Z.geb_leb; apply Z.leb_gt; exact Hlt).
    rewrite Hf in Hs.
    destruct (has_focus (c_state c)).
    + rewrite render_frame_state. exact (Hinv Hs).
    + exact (Hinv Hs).
Qed.

Lemma main_loop_settles (script : list PollAnswer) (c : Config) (b : bool) :
  (b = true -> surface_invariant (c_state c)) ->
  fold_left (fun b p => settles p b) script b = true \/
  run_status (main_loop script c) = Returned ->
  surface_invariant (c_state (run_config (main_loop script c))).
Proof.
  revert c b. induction script as [|p rest IH]; intros c b Hinv H;
    cbn [main_loop fold_left] in *.
  - destruct H as [H|H]; [exact (Hinv H) | discriminate H].
  - destruct (loop_body p c) as [[c'|c'] l] eqn:Hb;
      cbn [prepend run_status run_config] in *.
    + apply surface_invariant_torn_down.
      exact (proj1 (loop_body_returned p c c' l Hb)).
    + apply (IH c' (settles p b)); [|exact H].
      intros Hs. exact (loop_body_settles p c c' l b Hinv Hb Hs).
Qed.

(** C2 (as the code has it). In every state [android_main] reaches, the
    invariant holds ([initialized] true means the display, surface and
    context handles are all non-null, [initialized] false means all three
    are null) unless an [init_display] has failed since the last
    [terminate_display] or successful [init_display]: it holds at the
    start, a failed [init_display] may break it, and the next
    [APP_CMD_TERM_WINDOW], the next successful [init_display] or the return
    of [android_main] restores it from whatever state that failure left. *)
Theorem surface_invariant_unless_failure_pending
    (app_ptr : Z) (a : android_app) (script : list PollAnswer) :
  no_pending_failure script = true \/
  run_status (android_main app_ptr a script) = Returned ->
  surface_invariant (c_state (run_config (android_main app_ptr a script))).
Proof.
  intros H. unfold android_main in *. cbn [prepend run_status run_config] in *.
  apply (main_loop_settles script (mkConfig a (initial_state app_ptr)) true).
  - intros _. apply surface_invariant_initial.
  - exact H.
Qed.

Lemma surface_invariant_unless_failure_pending_witness :
  surface_invariant
    (c_state (run_config
       (android_main 1 app0
          [ cmd_answer APP_CMD_INIT_WINDOW 77 env_no_config;
            cmd_answer APP_CMD_GAINED_FOCUS 0 env_ok;
            cmd_answer APP_CMD_TERM_WINDOW 0 env_ok ]))).
Proof.
  apply (surface_invariant_unless_failure_pending 1 app0
          [ cmd_answer APP_CMD_INIT_WINDOW 77 env_no_config;
            cmd_answer APP_CMD_GAINED_FOCUS 0 env_ok;
            cmd_answer APP_CMD_TERM_WINDOW 0 env_ok ]).
  left. reflexivity.
Defined.

(** A run with a failed [init_display] still pending, ended by the destroy
    request: the invariant holds again when [android_main] returns. *)
Example surface_invariant_at_return :
  surface_invariant
    (c_state (run_config
       (android_main 1 app0
          [ cmd_answer APP_CMD_INIT_WINDOW 77 env_no_config;
            cmd_answer APP_CMD_DESTROY 0 env_ok ]))).
Proof.
  apply surface_invariant_torn_down. repeat split.
Qed.

(** Scripts in which no [init_display] fails have no failure pending. *)
Lemma acquires_succeed_no_pending (script : list PollAnswer) :
  forallb acquire_succeeds script = true ->
  no_pending_failure script = true.
Proof.
  unfold no_pending_failure.
  assert (H : forall b, b = true -> forallb acquire_succeeds script = true ->
              fold_left (fun b p => settles p b) script b = true).
  { induction script as [|p rest IH]; intros b Hb Hok; cbn in *; [exact Hb|].
    apply andb_prop in Hok. destruct Hok as [Hp Hrest].
    apply IH; [|exact Hrest].
    subst b. unfold settles, acquire_succeeds in *.
    destruct (poll_ret p >=? 0); [|reflexivity].
    destruct (poll_source p) as [[cmd w e|events]|]; try reflexivity.
    destruct (cmd =? APP_CMD_INIT_WINDOW); cbn [andb] in Hp.
    - destruct (w =? NULL); cbn [negb] in Hp; [reflexivity|].
      destruct (failing_step e); [discriminate Hp | reflexivity].
    - destruct (cmd =? APP_CMD_TERM_WINDOW); reflexivity. }
  apply H. reflexivity.
Qed.
